(** * The hand-scan page: detection debounce state machine

    A model of [src/app/scan/page.tsx].  The React component [ScanPage]
    keeps its state in hooks ([useState]) and in mutable cells ([useRef]);
    its handlers are closures created by one render and run later, from
    browser callbacks.  The model is a record holding the hook state, the
    cells and the part of the browser the handlers act on (media tracks,
    animation-frame requests, timeouts, the console), and one state
    transformer per handler of the source.

    Conventions of the model.
    - A setter [setX v] writes the hook state at once.  The handlers never
      read a hook variable back after setting it: they read cells, or the
      constants of the render that created them, see [Scope].
    - A handler is a closure of the render that created it.  The two hook
      values a handler reads straight from its render are [stream] (in
      [stopCamera]) and [mediapipeLoaded] (in [requestCameraPermission] and
      [initializeHandDetection]); a [Scope] carries them.  A click handler
      runs in the scope of the last committed render; the listener given to
      [hands.onResults] and everything it calls ([handleScanSuccess],
      [stopCamera]) run in the scope of the render whose
      [requestCameraPermission] started the session.
    - After every browser event the zero-delay timeouts run and React
      commits the render, which runs the effects that copy the hook state
      into the cells; see [settle].  The next event is delivered after that.
    - A click on [Scan Hand] is one event, with the awaits of
      [requestCameraPermission].  The 500 ms timeout it registers for
      [initializeHandDetection] is an event of its own, so that other
      events may come before it; the timeouts of 500 ms elapse oldest
      first.
    - [detectionCount] is a JavaScript number that only ever holds small
      integers; it is an integer here.
    - Drawing on the canvas, the animation library and routing are not
      modelled; the buttons that leave the page are modelled up to the
      handler they run on this page, and the page may still receive events
      after them.
    - Of what a render shows, the header paragraph, the two progress
      indicators and the action buttons are modelled: [headerText],
      [indicators], [buttons]. *)

From Stdlib Require Import ZArith List Bool String Lia PeanoNat.
From Stdlib Require Import DecimalString.
Import ListNotations.
Local Open Scope string_scope.
Local Open Scope list_scope.
Local Open Scope Z_scope.

(** ** Data *)

(** [type ScanStep = 'idle' | 'left-hand' | 'right-hand' | 'scanning' | 'complete'] *)
Inductive ScanStep : Type :=
| idle
| left_hand
| right_hand
| scanning_step
| complete.

(** [a === b] on steps. *)
Definition ScanStep_eqb (a b : ScanStep) : bool :=
  match a, b with
  | idle, idle | left_hand, left_hand | right_hand, right_hand
  | scanning_step, scanning_step | complete, complete => true
  | _, _ => false
  end.

(** [currentStep === 'left-hand' || currentStep === 'right-hand'] *)
Definition awaitingHand (st : ScanStep) : bool :=
  ScanStep_eqb st left_hand || ScanStep_eqb st right_hand.

(** The object [{ left: boolean, right: boolean }] of [handsDetected]. *)
Record HandsDetected : Type := mkHandsDetected {
  left : bool;
  right : bool
}.

(** A [MediaStream] handle, as [getUserMedia] returns it. *)
Definition MediaStream : Type := nat.

(** One set of hand landmarks; only their number is ever looked at. *)
Inductive Landmarks : Type := landmarks.

(** The [results] object handed to the [onResults] listener;
    [multiHandLandmarks] may be missing. *)
Record Results : Type := mkResults {
  multiHandLandmarks : option (list Landmarks)
}.

(** [results.multiHandLandmarks && results.multiHandLandmarks.length > 0] *)
Definition handsFound (results : Results) : bool :=
  match multiHandLandmarks results with
  | Some l => (0 <? List.length l)%nat
  | None => false
  end.

(** The render constants a handler closes over. *)
Record Scope : Type := mkScope {
  c_stream : option MediaStream;
  c_mediapipeLoaded : bool
}.

(** The detector instance of [new HandsClass(...)]: what the model keeps of
    it is the scope of the listener registered with [onResults]. *)
Record Hands : Type := mkHands {
  listener : Scope
}.

(** The callbacks the page passes to [setTimeout]. *)
Inductive Task : Type :=
| HandleScanSuccess (sc : Scope)        (* () => { handleScanSuccess(); } *)
| InitializeHandDetection (sc : Scope)  (* () => { initializeHandDetection(); } *)
| SetShowVideoTrue.                     (* () => { setShowVideo(true); } *)

Record Timeout : Type := mkTimeout {
  task : Task;
  delay : nat
}.

(** [const detectionThreshold = 30] *)
Definition detectionThreshold : Z := 30.

(** The page: hook state, cells, and the browser around them. *)
Record State : Type := mkState {
  (* useState *)
  step : ScanStep;
  stream : option MediaStream;
  error : string;
  scanning : bool;
  handsDetected : HandsDetected;
  showVideo : bool;
  detectionCount : Z;
  mediapipeLoaded : bool;
  (* useRef *)
  handsRef : option Hands;
  animationFrameRef : option nat;
  drawingUtilsRef : bool;               (* true when the cell is not null *)
  stepRef : ScanStep;
  scanningRef : bool;
  handsDetectedRef : HandsDetected;
  videoSrcObject : option MediaStream;  (* videoRef.current.srcObject *)
  (* the [stream] of the last committed render, which the cleanup of the
     effect with dependency [stream] closes over *)
  committedStream : option MediaStream;
  (* browser *)
  liveTracks : list MediaStream;        (* streams whose tracks still run *)
  pendingFrame : option nat;            (* the captureFrame call to come *)
  nextFrameId : nat;
  timers : list Timeout;
  console : list string
}.

(** A handler, or a step of one, as a change of the state. *)
Definition Action : Type := State -> State.

Definition seq (a b : Action) : Action := fun s => b (a s).
Notation "a ;; b" := (seq a b) (at level 61, right associativity).

Definition skip : Action := fun s => s.

Arguments seq _ _ _ /.
Arguments skip _ /.

(** State at mount. *)
Definition initial : State :=
  {| step := idle; stream := None; error := ""; scanning := false;
     handsDetected := mkHandsDetected false false; showVideo := false;
     detectionCount := 0; mediapipeLoaded := false;
     handsRef := None; animationFrameRef := None; drawingUtilsRef := false;
     stepRef := idle; scanningRef := false;
     handsDetectedRef := mkHandsDetected false false;
     videoSrcObject := None; committedStream := None;
     liveTracks := []; pendingFrame := None; nextFrameId := 1%nat;
     timers := []; console := [] |}.

(** ** Field updates *)

Definition set_step (v : ScanStep) : Action := fun s =>
  let 'mkState _ stream error scanning handsDetected showVideo detectionCount
      mediapipeLoaded handsRef animationFrameRef drawingUtilsRef stepRef
      scanningRef handsDetectedRef videoSrcObject committedStream liveTracks
      pendingFrame nextFrameId timers console := s in
  mkState v stream error scanning handsDetected showVideo detectionCount
    mediapipeLoaded handsRef animationFrameRef drawingUtilsRef stepRef
    scanningRef handsDetectedRef videoSrcObject committedStream liveTracks
    pendingFrame nextFrameId timers console.

Definition set_stream (v : option MediaStream) : Action := fun s =>
  let 'mkState step _ error scanning handsDetected showVideo detectionCount
      mediapipeLoaded handsRef animationFrameRef drawingUtilsRef stepRef
      scanningRef handsDetectedRef videoSrcObject committedStream liveTracks
      pendingFrame nextFrameId timers console := s in
  mkState step v error scanning handsDetected showVideo detectionCount
    mediapipeLoaded handsRef animationFrameRef drawingUtilsRef stepRef
    scanningRef handsDetectedRef videoSrcObject committedStream liveTracks
    pendingFrame nextFrameId timers console.

Definition set_error (v : string) : Action := fun s =>
  let 'mkState step stream _ scanning handsDetected showVideo detectionCount
      mediapipeLoaded handsRef animationFrameRef drawingUtilsRef stepRef
      scanningRef handsDetectedRef videoSrcObject committedStream liveTracks
      pendingFrame nextFrameId timers console := s in
  mkState step stream v scanning handsDetected showVideo detectionCount
    mediapipeLoaded handsRef animationFrameRef drawingUtilsRef stepRef
    scanningRef handsDetectedRef videoSrcObject committedStream liveTracks
    pendingFrame nextFrameId timers console.

Definition set_scanning (v : bool) : Action := fun s =>
  let 'mkState step stream error _ handsDetected showVideo detectionCount
      mediapipeLoaded handsRef animationFrameRef drawingUtilsRef stepRef
      scanningRef handsDetectedRef videoSrcObject committedStream liveTracks
      pendingFrame nextFrameId timers console := s in
  mkState step stream error v handsDetected showVideo detectionCount
    mediapipeLoaded handsRef animationFrameRef drawingUtilsRef stepRef
    scanningRef handsDetectedRef videoSrcObject committedStream liveTracks
    pendingFrame nextFrameId timers console.

Definition set_handsDetected (v : HandsDetected) : Action := fun s =>
  let 'mkState step stream error scanning _ showVideo detectionCount
      mediapipeLoaded handsRef animationFrameRef drawingUtilsRef stepRef
      scanningRef handsDetectedRef videoSrcObject committedStream liveTracks
      pendingFrame nextFrameId timers console := s in
  mkState step stream error scanning v showVideo detectionCount
    mediapipeLoaded handsRef animationFrameRef drawingUtilsRef stepRef
    scanningRef handsDetectedRef videoSrcObject committedStream liveTracks
    pendingFrame nextFrameId timers console.

Definition set_showVideo (v : bool) : Action := fun s =>
  let 'mkState step stream error scanning handsDetected _ detectionCount
      mediapipeLoaded handsRef animationFrameRef drawingUtilsRef stepRef
      scanningRef handsDetectedRef videoSrcObject committedStream liveTracks
      pendingFrame nextFrameId timers console := s in
  mkState step stream error scanning handsDetected v detectionCount
    mediapipeLoaded handsRef animationFrameRef drawingUtilsRef stepRef
    scanningRef handsDetectedRef videoSrcObject committedStream liveTracks
    pendingFrame nextFrameId timers console.

Definition set_detectionCount (v : Z) : Action := fun s =>
  let 'mkState step stream error scanning handsDetected showVideo _
      mediapipeLoaded handsRef animationFrameRef drawingUtilsRef stepRef
      scanningRef handsDetectedRef videoSrcObject committedStream liveTracks
      pendingFrame nextFrameId timers console := s in
  mkState step stream error scanning handsDetected showVideo v
    mediapipeLoaded handsRef animationFrameRef drawingUtilsRef stepRef
    scanningRef handsDetectedRef videoSrcObject committedStream liveTracks
    pendingFrame nextFrameId timers console.

Definition set_mediapipeLoaded (v : bool) : Action := fun s =>
  let 'mkState step stream error scanning handsDetected showVideo
      detectionCount _ handsRef animationFrameRef drawingUtilsRef stepRef
      scanningRef handsDetectedRef videoSrcObject committedStream liveTracks
      pendingFrame nextFrameId timers console := s in
  mkState step stream error scanning handsDetected showVideo detectionCount v
    handsRef animationFrameRef drawingUtilsRef stepRef scanningRef
    handsDetectedRef videoSrcObject committedStream liveTracks pendingFrame
    nextFrameId timers console.

Definition set_handsRef (v : option Hands) : Action := fun s =>
  let 'mkState step stream error scanning handsDetected showVideo
      detectionCount mediapipeLoaded _ animationFrameRef drawingUtilsRef
      stepRef scanningRef handsDetectedRef videoSrcObject committedStream
      liveTracks pendingFrame nextFrameId timers console := s in
  mkState step stream error scanning handsDetected showVideo detectionCount
    mediapipeLoaded v animationFrameRef drawingUtilsRef stepRef scanningRef
    handsDetectedRef videoSrcObject committedStream liveTracks pendingFrame
    nextFrameId timers console.

Definition set_animationFrameRef (v : option nat) : Action := fun s =>
  let 'mkState step stream error scanning handsDetected showVideo
      detectionCount mediapipeLoaded handsRef _ drawingUtilsRef stepRef
      scanningRef handsDetectedRef videoSrcObject committedStream liveTracks
      pendingFrame nextFrameId timers console := s in
  mkState step stream error scanning handsDetected showVideo detectionCount
    mediapipeLoaded handsRef v drawingUtilsRef stepRef scanningRef
    handsDetectedRef videoSrcObject committedStream liveTracks pendingFrame
    nextFrameId timers console.

Definition set_drawingUtilsRef (v : bool) : Action := fun s =>
  let 'mkState step stream error scanning handsDetected showVideo
      detectionCount mediapipeLoaded handsRef animationFrameRef _ stepRef
      scanningRef handsDetectedRef videoSrcObject committedStream liveTracks
      pendingFrame nextFrameId timers console := s in
  mkState step stream error scanning handsDetected showVideo detectionCount
    mediapipeLoaded handsRef animationFrameRef v stepRef scanningRef
    handsDetectedRef videoSrcObject committedStream liveTracks pendingFrame
    nextFrameId timers console.

Definition set_stepRef (v : ScanStep) : Action := fun s =>
  let 'mkState step stream error scanning handsDetected showVideo
      detectionCount mediapipeLoaded handsRef animationFrameRef
      drawingUtilsRef _ scanningRef handsDetectedRef videoSrcObject
      committedStream liveTracks pendingFrame nextFrameId timers console := s in
  mkState step stream error scanning handsDetected showVideo detectionCount
    mediapipeLoaded handsRef animationFrameRef drawingUtilsRef v scanningRef
    handsDetectedRef videoSrcObject committedStream liveTracks pendingFrame
    nextFrameId timers console.

Definition set_scanningRef (v : bool) : Action := fun s =>
  let 'mkState step stream error scanning handsDetected showVideo
      detectionCount mediapipeLoaded handsRef animationFrameRef
      drawingUtilsRef stepRef _ handsDetectedRef videoSrcObject
      committedStream liveTracks pendingFrame nextFrameId timers console := s in
  mkState step stream error scanning handsDetected showVideo detectionCount
    mediapipeLoaded handsRef animationFrameRef drawingUtilsRef stepRef v
    handsDetectedRef videoSrcObject committedStream liveTracks pendingFrame
    nextFrameId timers console.

Definition set_handsDetectedRef (v : HandsDetected) : Action := fun s =>
  let 'mkState step stream error scanning handsDetected showVideo
      detectionCount mediapipeLoaded handsRef animationFrameRef
      drawingUtilsRef stepRef scanningRef _ videoSrcObject committedStream
      liveTracks pendingFrame nextFrameId timers console := s in
  mkState step stream error scanning handsDetected showVideo detectionCount
    mediapipeLoaded handsRef animationFrameRef drawingUtilsRef stepRef
    scanningRef v videoSrcObject committedStream liveTracks pendingFrame
    nextFrameId timers console.

Definition set_videoSrcObject (v : option MediaStream) : Action := fun s =>
  let 'mkState step stream error scanning handsDetected showVideo
      detectionCount mediapipeLoaded handsRef animationFrameRef
      drawingUtilsRef stepRef scanningRef handsDetectedRef _ committedStream
      liveTracks pendingFrame nextFrameId timers console := s in
  mkState step stream error scanning handsDetected showVideo detectionCount
    mediapipeLoaded handsRef animationFrameRef drawingUtilsRef stepRef
    scanningRef handsDetectedRef v committedStream liveTracks pendingFrame
    nextFrameId timers console.

Definition set_committedStream (v : option MediaStream) : Action := fun s =>
  let 'mkState step stream error scanning handsDetected showVideo
      detectionCount mediapipeLoaded handsRef animationFrameRef
      drawingUtilsRef stepRef scanningRef handsDetectedRef videoSrcObject _
      liveTracks pendingFrame nextFrameId timers console := s in
  mkState step stream error scanning handsDetected showVideo detectionCount
    mediapipeLoaded handsRef animationFrameRef drawingUtilsRef stepRef
    scanningRef handsDetectedRef videoSrcObject v liveTracks pendingFrame
    nextFrameId timers console.

Definition set_liveTracks (v : list MediaStream) : Action := fun s =>
  let 'mkState step stream error scanning handsDetected showVideo
      detectionCount mediapipeLoaded handsRef animationFrameRef
      drawingUtilsRef stepRef scanningRef handsDetectedRef videoSrcObject
      committedStream _ pendingFrame nextFrameId timers console := s in
  mkState step stream error scanning handsDetected showVideo detectionCount
    mediapipeLoaded handsRef animationFrameRef drawingUtilsRef stepRef
    scanningRef handsDetectedRef videoSrcObject committedStream v
    pendingFrame nextFrameId timers console.

Definition set_pendingFrame (v : option nat) : Action := fun s =>
  let 'mkState step stream error scanning handsDetected showVideo
      detectionCount mediapipeLoaded handsRef animationFrameRef
      drawingUtilsRef stepRef scanningRef handsDetectedRef videoSrcObject
      committedStream liveTracks _ nextFrameId timers console := s in
  mkState step stream error scanning handsDetected showVideo detectionCount
    mediapipeLoaded handsRef animationFrameRef drawingUtilsRef stepRef
    scanningRef handsDetectedRef videoSrcObject committedStream liveTracks v
    nextFrameId timers console.

Definition set_nextFrameId (v : nat) : Action := fun s =>
  let 'mkState step stream error scanning handsDetected showVideo
      detectionCount mediapipeLoaded handsRef animationFrameRef
      drawingUtilsRef stepRef scanningRef handsDetectedRef videoSrcObject
      committedStream liveTracks pendingFrame _ timers console := s in
  mkState step stream error scanning handsDetected showVideo detectionCount
    mediapipeLoaded handsRef animationFrameRef drawingUtilsRef stepRef
    scanningRef handsDetectedRef videoSrcObject committedStream liveTracks
    pendingFrame v timers console.

Definition set_timers (v : list Timeout) : Action := fun s =>
  let 'mkState step stream error scanning handsDetected showVideo
      detectionCount mediapipeLoaded handsRef animationFrameRef
      drawingUtilsRef stepRef scanningRef handsDetectedRef videoSrcObject
      committedStream liveTracks pendingFrame nextFrameId _ console := s in
  mkState step stream error scanning handsDetected showVideo detectionCount
    mediapipeLoaded handsRef animationFrameRef drawingUtilsRef stepRef
    scanningRef handsDetectedRef videoSrcObject committedStream liveTracks
    pendingFrame nextFrameId v console.

Definition set_console (v : list string) : Action := fun s =>
  let 'mkState step stream error scanning handsDetected showVideo
      detectionCount mediapipeLoaded handsRef animationFrameRef
      drawingUtilsRef stepRef scanningRef handsDetectedRef videoSrcObject
      committedStream liveTracks pendingFrame nextFrameId timers _ := s in
  mkState step stream error scanning handsDetected showVideo detectionCount
    mediapipeLoaded handsRef animationFrameRef drawingUtilsRef stepRef
    scanningRef handsDetectedRef videoSrcObject committedStream liveTracks
    pendingFrame nextFrameId timers v.


(** ** Hooks and browser calls *)

Definition setStep : ScanStep -> Action := set_step.
Definition setStream : option MediaStream -> Action := set_stream.
Definition setError : string -> Action := set_error.
Definition setScanning : bool -> Action := set_scanning.
Definition setShowVideo : bool -> Action := set_showVideo.
Definition setMediapipeLoaded : bool -> Action := set_mediapipeLoaded.

(** [setHandsDetected(prev => ...)] and [setDetectionCount(prev => ...)]. *)
Definition setHandsDetected (f : HandsDetected -> HandsDetected) : Action :=
  fun s => set_handsDetected (f (handsDetected s)) s.

Definition setDetectionCount (f : Z -> Z) : Action :=
  fun s => set_detectionCount (f (detectionCount s)) s.

Definition consoleError (msg : string) : Action :=
  fun s => set_console (console s ++ [msg]) s.

Definition setTimeout (t : Task) (ms : nat) : Action :=
  fun s => set_timers (timers s ++ [mkTimeout t ms]) s.

(** [stream.getTracks().forEach(track => track.stop())] *)
Definition stopTracks (m : MediaStream) : Action :=
  fun s => set_liveTracks (remove Nat.eq_dec m (liveTracks s)) s.

Definition sameFrame (a : option nat) (id : nat) : bool :=
  match a with
  | Some i => Nat.eqb i id
  | None => false
  end.

Definition cancelAnimationFrame (id : nat) : Action :=
  fun s => if sameFrame (pendingFrame s) id then set_pendingFrame None s else s.

(** [animationFrameRef.current = requestAnimationFrame(captureFrame)] *)
Definition requestAnimationFrame : Action :=
  fun s =>
    let id := nextFrameId s in
    (set_pendingFrame (Some id) ;; set_nextFrameId (S id) ;;
     set_animationFrameRef (Some id)) s.

(** [videoRef.current] and [canvasRef.current]: the camera [<video>] and the
    [<canvas>] are rendered when [showVideo] is false. *)
Definition videoMounted (s : State) : bool := negb (showVideo s).
Definition canvasMounted (s : State) : bool := negb (showVideo s).

(** [videoRef.current.readyState >= 2]: the element has a stream to show. *)
Definition videoReady (s : State) : bool :=
  match videoSrcObject s with
  | Some _ => true
  | None => false
  end.

(** The scope of the last committed render. *)
Definition scope (s : State) : Scope :=
  mkScope (stream s) (mediapipeLoaded s).

(** ** The handlers of the page *)

(** [stopCamera]; [stream] is the one of the scope [sc]. *)
Definition stopCamera (sc : Scope) : Action :=
  (match c_stream sc with
   | Some m => stopTracks m ;; setStream None
   | None => skip
   end) ;;
  (fun s => match animationFrameRef s with
            | Some id => (cancelAnimationFrame id ;; set_animationFrameRef None) s
            | None => s
            end) ;;
  (fun s => match handsRef s with
            | Some _ => set_handsRef None s       (* close(), then null *)
            | None => s
            end) ;;
  (fun s => if videoMounted s then set_videoSrcObject None s else s).

(** [handleScanSuccess]; the flags are read from the cell, and [stopCamera]
    is the one of the same render. *)
Definition handleScanSuccess (sc : Scope) : Action :=
  fun s =>
    let currentHandsDetected := handsDetectedRef s in
    (setScanning false ;;
     setDetectionCount (fun _ => 0) ;;
     if negb (left currentHandsDetected) then
       setHandsDetected (fun prev => mkHandsDetected true (right prev)) ;;
       setStep right_hand
     else if negb (right currentHandsDetected) then
       setHandsDetected (fun prev => mkHandsDetected (left prev) true) ;;
       setStep complete ;;
       stopCamera sc ;;
       setTimeout SetShowVideoTrue 1000
     else skip) s.

(** The updater given to [setDetectionCount] by the listener. *)
Definition countDetection (sc : Scope) : Action :=
  fun s =>
    let prev := detectionCount s in
    let newCount := prev + 1 in
    if detectionThreshold <=? newCount then
      (setTimeout (HandleScanSuccess sc) 0 ;; set_detectionCount 0) s
    else set_detectionCount newCount s.

(** The listener registered with [hands.onResults]. *)
Definition onResults (sc : Scope) (results : Results) : Action :=
  fun s =>
    if negb (canvasMounted s) || negb (drawingUtilsRef s) then s
    else
      let currentStep := stepRef s in
      if handsFound results then
        if awaitingHand currentStep then countDetection sc s else s
      else
        if awaitingHand currentStep then setDetectionCount (fun _ => 0) s
        else s.

(** The text of [console.error] in [captureFrame]. *)
Definition msgSend : string := "Error sending frame to hands:".

(** What [await handsRef.current.send(...)] does: the detector calls the
    listener with its results, or the call throws. *)
Inductive SendOutcome : Type :=
| Delivered (results : Results)
| SendFailed.

(** One round of [captureFrame]: send the frame if the detector and the
    video are there, log a failure, ask for the next round. *)
Definition captureFrame (o : SendOutcome) : Action :=
  (fun s =>
     match handsRef s with
     | Some h =>
         if videoMounted s && videoReady s then
           match o with
           | Delivered results => onResults (listener h) results s
           | SendFailed => consoleError msgSend s
           end
         else s
     | None => s
     end) ;;
  requestAnimationFrame.

(** [initializeHandDetection]; its first [captureFrame()] is a direct call,
    kept here as the call to come without a request id.  The wait for a
    video that is not ready yet is left out. *)
Definition initializeHandDetection (sc : Scope) : Action :=
  fun s =>
    if negb (videoMounted s) || negb (canvasMounted s)
       || negb (c_mediapipeLoaded sc) || negb (drawingUtilsRef s) then s
    else
      ((fun s => match animationFrameRef s with
                 | Some id =>
                     (cancelAnimationFrame id ;; set_animationFrameRef None) s
                 | None => s
                 end) ;;
       set_handsRef (Some (mkHands sc)) ;;
       (fun s => if videoReady s then
                   (set_pendingFrame (Some (nextFrameId s)) ;;
                    set_nextFrameId (S (nextFrameId s))) s
                 else s)) s.

(** What [getUserMedia] and [play] do for [requestCameraPermission]. *)
Inductive CameraOutcome : Type :=
| Granted (m : MediaStream)
| PlayRejected (m : MediaStream)
| Denied.

(** The texts given to [setError]. *)
Definition msgLoading : string :=
  "Please wait, loading hand detection library...".
Definition msgDenied : string :=
  "Camera permission denied. Please allow camera access to continue.".
Definition msgLibrary : string :=
  "Failed to load hand detection library. Please refresh the page.".

(** The [catch] of [requestCameraPermission]. *)
Definition cameraDenied : Action :=
  setError msgDenied ;; consoleError "Error accessing camera:".

(** [requestCameraPermission]; [mediapipeLoaded] is the one of the scope
    [sc], and so is the [initializeHandDetection] it schedules. *)
Definition requestCameraPermission (sc : Scope) (o : CameraOutcome) : Action :=
  setError "" ;;
  if negb (c_mediapipeLoaded sc) then setError msgLoading
  else
    match o with
    | Denied => cameraDenied
    | PlayRejected m =>
        (fun s => set_liveTracks (m :: liveTracks s) s) ;;
        setStream (Some m) ;;
        (fun s => if videoMounted s
                  then (set_videoSrcObject (Some m) ;; cameraDenied) s
                  else (setStep left_hand ;; setScanning true) s)
    | Granted m =>
        (fun s => set_liveTracks (m :: liveTracks s) s) ;;
        setStream (Some m) ;;
        (fun s => if videoMounted s
                  then (set_videoSrcObject (Some m) ;;
                        setTimeout (InitializeHandDetection sc) 500) s
                  else s) ;;
        setStep left_hand ;;
        setScanning true
    end.

(** [resetScan] *)
Definition resetScan (sc : Scope) : Action :=
  stopCamera sc ;;
  setStep idle ;;
  setHandsDetected (fun _ => mkHandsDetected false false) ;;
  setShowVideo false ;;
  setScanning false ;;
  setDetectionCount (fun _ => 0).

(** ** Timeouts and the commit of a render *)

(** Running a callback given to [setTimeout]. *)
Definition runTask (t : Task) : Action :=
  match t with
  | HandleScanSuccess sc => handleScanSuccess sc
  | InitializeHandDetection sc => initializeHandDetection sc
  | SetShowVideoTrue => setShowVideo true
  end.

(** Running timeouts in the order they were registered. *)
Fixpoint runTasks (ts : list Timeout) : Action :=
  match ts with
  | [] => skip
  | t :: ts' => runTask (task t) ;; runTasks ts'
  end.

(** Run the pending timeouts registered with a delay of [ms]. *)
Definition fire (ms : nat) : Action :=
  fun s =>
    let due := filter (fun t => Nat.eqb (delay t) ms) (timers s) in
    let rest := filter (fun t => negb (Nat.eqb (delay t) ms)) (timers s) in
    runTasks due (set_timers rest s).

(** The oldest pending timeout registered with a delay of [ms], and the
    others. *)
Fixpoint oldest (ms : nat) (l : list Timeout) : option (Timeout * list Timeout) :=
  match l with
  | [] => None
  | t :: l' =>
      if Nat.eqb (delay t) ms then Some (t, l')
      else match oldest ms l' with
           | Some (u, rest) => Some (u, t :: rest)
           | None => None
           end
  end.

(** Run the oldest pending timeout registered with a delay of [ms]. *)
Definition fireOldest (ms : nat) : Action :=
  fun s =>
    match oldest ms (timers s) with
    | Some (t, rest) => runTask (task t) (set_timers rest s)
    | None => s
    end.

(** [a === b] on streams. *)
Definition sameStream (a b : option MediaStream) : bool :=
  match a, b with
  | Some x, Some y => Nat.eqb x y
  | None, None => true
  | _, _ => false
  end.

(** The cleanup of the effect with dependency [stream], in the scope of the
    render that registered it.  It also closes the detector the cell holds,
    without emptying the cell; a detector is kept here only through its
    listener, so that call changes nothing of the state. *)
Definition streamCleanup (old : option MediaStream) : Action :=
  (match old with
   | Some m => stopTracks m
   | None => skip
   end) ;;
  (fun s => match animationFrameRef s with
            | Some id => cancelAnimationFrame id s
            | None => s
            end).

(** The effects that keep the cells in sync with the state. *)
Definition syncRefs : Action :=
  (fun s => set_stepRef (step s) s) ;;
  (fun s => set_scanningRef (scanning s) s) ;;
  (fun s => set_handsDetectedRef (handsDetected s) s).

(** The effect with dependency [stream]: when [stream] has changed, the
    cleanup registered by the previous render runs. *)
Definition streamEffect : Action :=
  fun s => if sameStream (stream s) (committedStream s) then s
           else (streamCleanup (committedStream s) ;;
                 set_committedStream (stream s)) s.

(** The effects of a commit. *)
Definition commitEffects : Action := syncRefs ;; streamEffect.

(** Between two events: the zero-delay timeouts, then the commit. *)
Definition settle : Action := fire 0 ;; commitEffects.

(** ** Events *)

(** What the browser delivers to the page. *)
Inductive Event : Type :=
| LibraryLoaded                       (* the dynamic imports resolve *)
| LibraryFailed                       (* the dynamic imports reject *)
| ClickScanHand (o : CameraOutcome)   (* button, shown when step is idle *)
| InitializeDue                       (* the oldest 500 ms timeout elapses *)
| AnimationFrame (o : SendOutcome)    (* the captureFrame call to come runs *)
| RevealDue                           (* the 1000 ms timeout elapses *)
| ClickReset                          (* button, shown while awaiting a hand *)
| ClickBackToHome                     (* button, shown after the reveal *)
| ClickBackToHomeDuringScan.          (* button, shown during a scan *)

(** The handler an event runs.  A button acts only where the page shows
    it. *)
Definition handler (e : Event) : Action :=
  fun s =>
    match e with
    | LibraryLoaded => (set_drawingUtilsRef true ;; setMediapipeLoaded true) s
    | LibraryFailed =>
        (consoleError "Error loading MediaPipe:" ;; setError msgLibrary) s
    | ClickScanHand o =>
        if ScanStep_eqb (step s) idle
        then requestCameraPermission (scope s) o s
        else s
    | InitializeDue => fireOldest 500 s
    | AnimationFrame o =>
        match pendingFrame s with
        | Some _ => (set_pendingFrame None ;; captureFrame o) s
        | None => s
        end
    | RevealDue => fire 1000 s
    | ClickReset =>
        if awaitingHand (step s) then resetScan (scope s) s else s
    | ClickBackToHome =>
        if ScanStep_eqb (step s) complete && showVideo s
        then resetScan (scope s) s else s
    | ClickBackToHomeDuringScan =>
        if negb (ScanStep_eqb (step s) idle)
           && negb (ScanStep_eqb (step s) complete)
        then stopCamera (scope s) s else s
    end.

(** An event, with the timeouts and the commit that follow it. *)
Definition dispatch (e : Event) : Action := handler e ;; settle.

(** A list of events, in order. *)
Fixpoint run (es : list Event) (s : State) : State :=
  match es with
  | [] => s
  | e :: es' => run es' (dispatch e s)
  end.

(** The result of an analysis that found [n] hands. *)
Definition found (n : nat) : Results :=
  mkResults (Some (repeat landmarks n)).

(** The frame events that deliver the results [rs]. *)
Definition frames (rs : list Results) : list Event :=
  map (fun r => AnimationFrame (Delivered r)) rs.

(** * Predicates, sample sessions and proof vocabulary *)

(** [o] is not null. *)
Definition isSome {A : Type} (o : option A) : bool :=
  match o with
  | Some _ => true
  | None => false
  end.

(** The two flag objects hold the same flags. *)
Definition HandsDetected_eqb (a b : HandsDetected) : bool :=
  Bool.eqb (left a) (left b) && Bool.eqb (right a) (right b).

(** The cells agree with the committed state. *)
Definition inSync (s : State) : bool :=
  ScanStep_eqb (stepRef s) (step s)
  && HandsDetected_eqb (handsDetectedRef s) (handsDetected s)
  && Bool.eqb (scanningRef s) (scanning s)
  && sameStream (stream s) (committedStream s).

(** A session is under way: a hand is awaited, the detector is installed,
    the camera video plays, a captureFrame call is to come and no timeout
    is pending. *)
Definition tracking (s : State) : bool :=
  awaitingHand (step s) && inSync s
  && isSome (handsRef s) && videoReady s && negb (showVideo s)
  && drawingUtilsRef s && isSome (pendingFrame s)
  && match timers s with [] => true | _ :: _ => false end.

(** Everything but the tally and the bookkeeping of the frame pump. *)
Definition besidesPump (s : State) : State :=
  (set_detectionCount 0 ;; set_animationFrameRef None ;;
   set_pendingFrame None ;; set_nextFrameId 0%nat) s.

(** The entities of the state machine. *)
Definition entities (s : State) : ScanStep * Z * HandsDetected :=
  (step s, detectionCount s, handsDetected s).

(** The tally is a count below the threshold. *)
Definition bounded (s : State) : Prop :=
  0 <= detectionCount s < detectionThreshold.

(** No timeout registered with delay [ms] is waiting. *)
Definition noneDue (ms : nat) (l : list Timeout) : Prop :=
  Forall (fun t => delay t <> ms) l.

(** The detector's listener was registered by a render whose [stream] was
    still null. *)
Definition staleListener (s : State) : bool :=
  match handsRef s with
  | Some h => negb (isSome (c_stream (listener h)))
  | None => false
  end.

(** What the page looks like once both hands are confirmed and the
    listener's [stopCamera] has run. *)
Definition finished (s : State) : Prop :=
  step s = complete /\ stepRef s = complete
  /\ handsDetected s = mkHandsDetected true true
  /\ detectionCount s = 0
  /\ handsRef s = None /\ pendingFrame s = None
  /\ animationFrameRef s = None /\ videoSrcObject s = None
  /\ timers s = [mkTimeout SetShowVideoTrue 1000%nat].

(** Every analysis of the list found one or more hands. *)
Definition allWithHands (rs : list Results) : bool := forallb handsFound rs.

(** The library is loaded, the camera granted and the detector installed:
    the session awaits the left hand. *)
Definition started : State :=
  run [LibraryLoaded; ClickScanHand (Granted 7%nat); InitializeDue] initial.

(** Fifteen frames with a hand into the session. *)
Definition midTally : State :=
  run (frames (repeat (found 1) 15)) started.

(** The left hand is confirmed. *)
Definition leftDone : State :=
  run (frames (repeat (found 1) 30)) started.

(** Both hands are confirmed. *)
Definition bothDone : State :=
  run (frames (repeat (found 2) 30)) leftDone.

(** Both hands are confirmed and the render is not committed yet: the
    timeout of the last confirmation has run [handleScanSuccess], the
    effects that write the cells have not run. *)
Definition uncommitted : State :=
  fire 0
    (handler (AnimationFrame (Delivered (found 2)))
       (run (frames (repeat (found 2) 29)) leftDone)).

(** The states the handler of a frame event leads to, before the timeouts
    and the commit: no call was to come; the call ran without reaching the
    tally; the analysis threw; the tally was cleared, raised, or reached
    the threshold. *)
Inductive frameResult (s : State) : State -> Prop :=
| frame_none :
    pendingFrame s = None -> frameResult s s
| frame_idle :
    frameResult s (requestAnimationFrame (set_pendingFrame None s))
| frame_failed :
    frameResult s
      (requestAnimationFrame (consoleError msgSend (set_pendingFrame None s)))
| frame_cleared :
    awaitingHand (stepRef s) = true ->
    frameResult s
      (requestAnimationFrame (set_detectionCount 0 (set_pendingFrame None s)))
| frame_counted :
    awaitingHand (stepRef s) = true ->
    detectionCount s + 1 < detectionThreshold ->
    frameResult s
      (requestAnimationFrame
         (set_detectionCount (detectionCount s + 1) (set_pendingFrame None s)))
| frame_reached (sc : Scope) :
    awaitingHand (stepRef s) = true ->
    detectionThreshold <= detectionCount s + 1 ->
    frameResult s
      (requestAnimationFrame
         (set_detectionCount 0
            (setTimeout (HandleScanSuccess sc) 0 (set_pendingFrame None s)))).

(** The action [a] keeps the property [P] of the state. *)
Definition Preserves (P : State -> Prop) (a : Action) : Prop :=
  forall s, P s -> P (a s).

(** No zero-delay timeout waits and the flags cell agrees with the state:
    what every commit leaves behind. *)
Definition quiet (s : State) : Prop :=
  noneDue 0 (timers s) /\ handsDetectedRef s = handsDetected s.

(** The flags [b] come from the flags [a] by at most one confirmation, the
    left hand first. *)
Definition oneConfirmation (a b : HandsDetected) : Prop :=
  b = a
  \/ (left a = false /\ b = mkHandsDetected true (right a))
  \/ (left a = true /\ right a = false /\ b = mkHandsDetected true true).

(** The timeout that reveals the video. *)
Definition reveal : Timeout := mkTimeout SetShowVideoTrue 1000.

(** The scan is complete, the step cell knows it, and the only timeouts
    waiting are reveals. *)
Definition halted (s : State) : Prop :=
  step s = complete /\ stepRef s = complete
  /\ Forall (fun t => t = reveal) (timers s).

(** The event is a click on the button whose handler calls [resetScan]
    once the scan is complete. *)
Definition resets (e : Event) : bool :=
  match e with
  | ClickBackToHome => true
  | _ => false
  end.

(** ** The page between two events *)

(** The flags that go with a step; ['scanning'] goes with none. *)
Definition flagsOf (st : ScanStep) : option HandsDetected :=
  match st with
  | idle | left_hand => Some (mkHandsDetected false false)
  | right_hand => Some (mkHandsDetected true false)
  | complete => Some (mkHandsDetected true true)
  | scanning_step => None
  end.

(** Every stream whose tracks run is the stream the page holds. *)
Definition noLeak (s : State) : bool :=
  forallb (fun x => sameStream (stream s) (Some x)) (liveTracks s).

(** The timeout [requestCameraPermission] registers in the scope [sc]. *)
Definition initTimeout (sc : Scope) : Timeout :=
  mkTimeout (InitializeHandDetection sc) 500.

(** The scan is complete and the video is not shown yet. *)
Definition revealWaits (s : State) : bool :=
  ScanStep_eqb (step s) complete && negb (showVideo s).

(** The timeouts that wait between two events: those of the clicks on
    [Scan Hand] whose 500 ms have not elapsed, in the scopes [scs], and
    after them the reveal, exactly while the scan is complete and the
    video is not shown. *)
Definition waiting (scs : list Scope) (s : State) : Prop :=
  timers s = map initTimeout scs ++ (if revealWaits s then [reveal] else []).

(** What holds of the page between two events. *)
Definition coherent (s : State) : Prop :=
  inSync s = true /\ bounded s
  /\ (mediapipeLoaded s = true -> drawingUtilsRef s = true)
  /\ noLeak s = true
  /\ flagsOf (step s) = Some (handsDetected s)
  /\ (awaitingHand (step s) = false -> detectionCount s = 0)
  /\ (showVideo s = true -> step s = complete)
  /\ (exists scs : list Scope, waiting scs s).

(** The tracks that run after the effect with dependency [stream]. *)
Definition liveAfterCommit (s : State) : list MediaStream :=
  if sameStream (stream s) (committedStream s) then liveTracks s
  else match committedStream s with
       | Some m0 => remove Nat.eq_dec m0 (liveTracks s)
       | None => liveTracks s
       end.

(** The stream part of [stopCamera]. *)
Definition stopStream (sc : Scope) : Action :=
  match c_stream sc with
  | Some m => stopTracks m ;; setStream None
  | None => skip
  end.

(** Everything but the detector and the bookkeeping of the frame pump,
    which [coherent] does not read. *)
Definition besidesDetector (s : State) : State :=
  (set_handsRef None ;; set_animationFrameRef None ;;
   set_pendingFrame None ;; set_nextFrameId 0%nat) s.


(** ** What a render shows *)

(** The text of an integer in a template literal. *)
Definition showNumber (n : Z) : string := NilZero.string_of_int (Z.to_int n).

(** [{c && x}] as the child of an element: [x] when [c] holds, nothing
    otherwise. *)
Definition shown {A : Type} (c : bool) (x : A) : list A :=
  if c then [x] else [].

(** The texts of the paragraph of the header, in order. *)
Definition headerText (s : State) : list string :=
  shown (ScanStep_eqb (step s) idle)
    "Click the button below to start scanning"
  ++ shown (ScanStep_eqb (step s) left_hand && (detectionCount s =? 0))
       "Position your left hand in the camera view"
  ++ shown (ScanStep_eqb (step s) left_hand && (0 <? detectionCount s))
       ("Detecting left hand... ("
        ++ showNumber (Z.min (detectionCount s) detectionThreshold)
        ++ "/" ++ showNumber detectionThreshold ++ ")")%string
  ++ shown (ScanStep_eqb (step s) right_hand && (detectionCount s =? 0))
       "Position your right hand in the camera view"
  ++ shown (ScanStep_eqb (step s) right_hand && (0 <? detectionCount s))
       ("Detecting right hand... ("
        ++ showNumber (Z.min (detectionCount s) detectionThreshold)
        ++ "/" ++ showNumber detectionThreshold ++ ")")%string
  ++ shown (ScanStep_eqb (step s) complete) "Scanning complete!".

(** The two progress indicators: ['left'] at index 0, ['right'] at 1. *)
Inductive Hand : Type := leftHand | rightHand.

Inductive Colour : Type := green | purple | gray.

(** A tick, or the number of the hand. *)
Inductive Mark : Type := tick | number (n : nat).

Definition indicator (hand : Hand) (index : nat) (s : State) : Colour * Mark :=
  let isActive :=
    match hand with
    | leftHand => ScanStep_eqb (step s) left_hand
    | rightHand => ScanStep_eqb (step s) right_hand
    end in
  let isComplete :=
    match hand with
    | leftHand => left (handsDetected s)
    | rightHand => right (handsDetected s)
    end in
  (if isComplete then green
   else if isActive || (ScanStep_eqb (step s) scanning_step && isActive)
        then purple
        else gray,
   if isComplete then tick else number (index + 1)).

Definition indicators (s : State) : list (Colour * Mark) :=
  [indicator leftHand 0 s; indicator rightHand 1 s].

(** The action buttons: [Scan Hand], [Reset], the [Back to Home] that resets
    once the video is revealed, and the [Back to Home] that stops the
    camera during a scan. *)
Inductive Button : Type :=
| ScanHandButton
| ResetButton
| BackToHomeAfterReveal
| BackToHomeDuringScan.

Definition buttons (s : State) : list Button :=
  shown (ScanStep_eqb (step s) idle) ScanHandButton
  ++ shown (awaitingHand (step s)) ResetButton
  ++ shown (ScanStep_eqb (step s) complete && showVideo s)
       BackToHomeAfterReveal
  ++ shown (negb (ScanStep_eqb (step s) idle)
            && negb (ScanStep_eqb (step s) complete))
       BackToHomeDuringScan.

(** The page is unmounted: the cleanup of the last effect on [stream]
    runs. *)
Definition unmount : Action :=
  fun s => streamCleanup (committedStream s) s.

(** * Facts about the handlers *)

(** ** Basic facts *)

Lemma ScanStep_eqb_eq (a b : ScanStep) : ScanStep_eqb a b = true -> a = b.
Proof. destruct a, b; simpl; congruence. Qed.

Lemma HandsDetected_eqb_eq (a b : HandsDetected) :
  HandsDetected_eqb a b = true -> a = b.
Proof.
  destruct a as [la ra], b as [lb rb]; unfold HandsDetected_eqb; simpl.
  intros H; apply andb_prop in H; destruct H as [Hl Hr].
  apply Bool.eqb_prop in Hl; apply Bool.eqb_prop in Hr; congruence.
Qed.

Lemma sameStream_eq (a b : option MediaStream) : sameStream a b = true -> a = b.
Proof.
  destruct a, b; simpl; try congruence.
  intros H; apply Nat.eqb_eq in H; congruence.
Qed.

Lemma sameStream_refl (a : option MediaStream) : sameStream a a = true.
Proof. destruct a; simpl; auto using Nat.eqb_refl. Qed.

Lemma ScanStep_eqb_refl (a : ScanStep) : ScanStep_eqb a a = true.
Proof. destruct a; reflexivity. Qed.

Lemma HandsDetected_eqb_refl (a : HandsDetected) : HandsDetected_eqb a a = true.
Proof. destruct a as [[] []]; reflexivity. Qed.

Lemma run_cons (e : Event) (es : list Event) (s : State) :
  run (e :: es) s = run es (dispatch e s).
Proof. reflexivity. Qed.

Lemma run_app (es1 es2 : list Event) (s : State) :
  run (es1 ++ es2) s = run es2 (run es1 s).
Proof.
  revert s; induction es1 as [|e es1 IH]; intros s; [reflexivity|].
  change ((e :: es1) ++ es2) with (e :: (es1 ++ es2)).
  rewrite !run_cons; apply IH.
Qed.

Lemma dispatch_eq (e : Event) (s : State) :
  dispatch e s = commitEffects (fire 0 (handler e s)).
Proof. reflexivity. Qed.

(** *** Timeouts *)

Lemma filter_noneDue (ms : nat) (l : list Timeout) :
  noneDue ms l ->
  filter (fun t => Nat.eqb (delay t) ms) l = []
  /\ filter (fun t => negb (Nat.eqb (delay t) ms)) l = l.
Proof.
  induction 1 as [|t l Ht _ [IH1 IH2]]; [split; reflexivity|].
  cbn [filter]. apply Nat.eqb_neq in Ht. rewrite Ht; cbn [negb].
  rewrite IH1, IH2; split; reflexivity.
Qed.

Lemma fire_none (ms : nat) (s : State) :
  noneDue ms (timers s) -> fire ms s = s.
Proof.
  intros H; destruct (filter_noneDue ms _ H) as [E1 E2].
  unfold fire; rewrite E1, E2; destruct s; reflexivity.
Qed.

Lemma fire_last (ms : nat) (t : Task) (l : list Timeout) (s : State) :
  timers s = l ++ [mkTimeout t ms] -> noneDue ms l ->
  fire ms s = runTask t (set_timers l s).
Proof.
  intros E H; destruct (filter_noneDue ms _ H) as [E1 E2].
  unfold fire; rewrite E, !filter_app, E1, E2; cbn [filter delay].
  rewrite Nat.eqb_refl; cbn [negb app]; rewrite app_nil_r.
  reflexivity.
Qed.

(** *** The commit *)

Lemma commit_in_sync (s : State) :
  sameStream (stream s) (committedStream s) = true ->
  commitEffects s = syncRefs s.
Proof.
  intros H; destruct s; cbn in H.
  unfold commitEffects, seq, streamEffect, syncRefs; cbn; rewrite H.
  reflexivity.
Qed.

(** *** The listener, one case at a time *)

Lemma onResults_hand (sc : Scope) (r : Results) (s : State) :
  showVideo s = false -> drawingUtilsRef s = true ->
  awaitingHand (stepRef s) = true -> handsFound r = true ->
  onResults sc r s = countDetection sc s.
Proof.
  intros V D A Hr; unfold onResults, canvasMounted.
  rewrite V, D, A, Hr; reflexivity.
Qed.

Lemma onResults_no_hand (sc : Scope) (r : Results) (s : State) :
  showVideo s = false -> drawingUtilsRef s = true ->
  awaitingHand (stepRef s) = true -> handsFound r = false ->
  onResults sc r s = set_detectionCount 0 s.
Proof.
  intros V D A Hr; unfold onResults, canvasMounted.
  rewrite V, D, A, Hr; reflexivity.
Qed.

Lemma onResults_ignored (sc : Scope) (r : Results) (s : State) :
  awaitingHand (stepRef s) = false -> onResults sc r s = s.
Proof.
  intros A; unfold onResults; rewrite A.
  destruct (negb (canvasMounted s) || negb (drawingUtilsRef s)), (handsFound r);
    reflexivity.
Qed.

Lemma countDetection_below (sc : Scope) (s : State) :
  detectionCount s + 1 < detectionThreshold ->
  countDetection sc s = set_detectionCount (detectionCount s + 1) s.
Proof.
  intros Hc; unfold countDetection; cbv zeta.
  destruct (Z.leb_spec detectionThreshold (detectionCount s + 1)); [lia|reflexivity].
Qed.

Lemma countDetection_reached (sc : Scope) (s : State) :
  detectionThreshold <= detectionCount s + 1 ->
  countDetection sc s =
  set_detectionCount 0 (setTimeout (HandleScanSuccess sc) 0 s).
Proof.
  intros Hc; unfold countDetection; cbv zeta.
  destruct (Z.leb_spec detectionThreshold (detectionCount s + 1)); [reflexivity|lia].
Qed.

(** Taking [tracking] apart. *)
Lemma tracking_inv (s : State) :
  tracking s = true ->
  awaitingHand (step s) = true /\ stepRef s = step s
  /\ handsDetectedRef s = handsDetected s /\ scanningRef s = scanning s
  /\ committedStream s = stream s
  /\ (exists h, handsRef s = Some h) /\ (exists m, videoSrcObject s = Some m)
  /\ showVideo s = false /\ drawingUtilsRef s = true
  /\ (exists id, pendingFrame s = Some id) /\ timers s = [].
Proof.
  unfold tracking, inSync, videoReady; intros H.
  rewrite !andb_true_iff in H.
  destruct H as [[[[[[[H [[[H8 H7] H6] H9]] H5] H4] H3] H2] H1] H0].
  assert (Hs := ScanStep_eqb_eq _ _ H8).
  assert (Hd := HandsDetected_eqb_eq _ _ H7).
  assert (Hb := Bool.eqb_prop _ _ H6).
  assert (Hm := sameStream_eq _ _ H9).
  split; [assumption|]. split; [assumption|]. split; [assumption|].
  split; [assumption|]. split; [auto|].
  split; [destruct (handsRef s); [eauto|discriminate]|].
  split; [destruct (videoSrcObject s); [eauto|discriminate]|].
  split; [destruct (showVideo s); [discriminate|reflexivity]|].
  split; [assumption|].
  split; [destruct (pendingFrame s); [eauto|discriminate]|].
  destruct (timers s); [reflexivity|discriminate].
Qed.

(** Breaks a tracking state into its fields, with what [tracking] says of
    them substituted. *)
Ltac open_tracking s H :=
  let X := fresh "X" in
  pose proof (tracking_inv s H) as X;
  destruct X as (?A & ?R1 & ?R2 & ?R3 & ?R4 & [?h ?Hh] & [?m ?Hm] & ?V & ?D
                 & [?id ?Hp] & ?T);
  clear H; destruct s; cbn in * |-; subst.

(** Evaluates setters and projections on a state given field by field; to
    be used once the tests of the handlers have been decided. *)
Ltac exec :=
  cbv beta iota zeta delta
    -[Z.add Z.leb Z.lt Z.le Nat.eqb handsFound awaitingHand remove
      detectionThreshold sameStream ScanStep_eqb HandsDetected_eqb Bool.eqb].

(** Closes the tests that compare a field with itself. *)
Ltac same :=
  rewrite ?sameStream_refl, ?ScanStep_eqb_refl, ?HandsDetected_eqb_refl,
    ?Bool.eqb_reflx, ?Nat.eqb_refl.

(** *** The frame event, one case at a time *)

Lemma handler_frame (o : SendOutcome) (s : State) (id : nat) :
  pendingFrame s = Some id ->
  handler (AnimationFrame o) s = captureFrame o (set_pendingFrame None s).
Proof. intros Hp; unfold handler; rewrite Hp; reflexivity. Qed.

Lemma captureFrame_delivered (r : Results) (s : State) (h : Hands) (m : MediaStream) :
  handsRef s = Some h -> showVideo s = false -> videoSrcObject s = Some m ->
  captureFrame (Delivered r) s =
  requestAnimationFrame (onResults (listener h) r s).
Proof.
  intros Hh V Hm; unfold captureFrame, seq, videoMounted, videoReady.
  rewrite Hh, V, Hm; reflexivity.
Qed.

Lemma captureFrame_failed (s : State) (h : Hands) (m : MediaStream) :
  handsRef s = Some h -> showVideo s = false -> videoSrcObject s = Some m ->
  captureFrame SendFailed s =
  requestAnimationFrame (consoleError msgSend s).
Proof.
  intros Hh V Hm; unfold captureFrame, seq, videoMounted, videoReady.
  rewrite Hh, V, Hm; reflexivity.
Qed.

(** What a frame does in a tracking state, before the timeouts and the
    commit. *)
Ltac frame_step h m id :=
  rewrite dispatch_eq;
  rewrite (handler_frame _ _ id) by reflexivity;
  first [ rewrite (captureFrame_delivered _ _ h m) by reflexivity
        | rewrite (captureFrame_failed _ h m) by reflexivity ].

(** One frame with a hand below the threshold: the tally goes up by one. *)
Lemma hand_frame_counts (r : Results) (s : State) :
  tracking s = true -> handsFound r = true ->
  detectionCount s + 1 < detectionThreshold ->
  let s' := dispatch (AnimationFrame (Delivered r)) s in
  tracking s' = true /\ besidesPump s' = besidesPump s
  /\ detectionCount s' = detectionCount s + 1.
Proof.
  intros H Hr Hc s'; subst s'. open_tracking s H.
  frame_step h m id.
  rewrite onResults_hand by (assumption || reflexivity).
  rewrite countDetection_below by exact Hc.
  rewrite fire_none by constructor.
  rewrite commit_in_sync by apply sameStream_refl.
  exec. rewrite A. same. auto.
Qed.

(** One frame without a hand: the tally is cleared. *)
Lemma no_hand_frame_resets (r : Results) (s : State) :
  tracking s = true -> handsFound r = false ->
  let s' := dispatch (AnimationFrame (Delivered r)) s in
  tracking s' = true /\ besidesPump s' = besidesPump s
  /\ detectionCount s' = 0.
Proof.
  intros H Hr s'; subst s'. open_tracking s H.
  frame_step h m id.
  rewrite onResults_no_hand by (assumption || reflexivity).
  rewrite fire_none by constructor.
  rewrite commit_in_sync by apply sameStream_refl.
  exec. rewrite A. same. auto.
Qed.

(** One frame whose analysis throws: only the console and the pump move. *)
Lemma failed_frame_skips (s : State) :
  tracking s = true ->
  let s' := dispatch (AnimationFrame SendFailed) s in
  tracking s' = true
  /\ besidesPump s' =
     besidesPump (consoleError msgSend s)
  /\ detectionCount s' = detectionCount s.
Proof.
  intros H s'; subst s'. open_tracking s H.
  frame_step h m id.
  rewrite fire_none by constructor.
  rewrite commit_in_sync by apply sameStream_refl.
  exec. rewrite A. same. auto.
Qed.

(** *** The confirmation handler, one case at a time *)

Lemma handleScanSuccess_first (sc : Scope) (s : State) :
  left (handsDetectedRef s) = false ->
  handleScanSuccess sc s =
  (setScanning false ;; setDetectionCount (fun _ => 0) ;;
   setHandsDetected (fun prev => mkHandsDetected true (right prev)) ;;
   setStep right_hand) s.
Proof. intros L; unfold handleScanSuccess; rewrite L; reflexivity. Qed.

Lemma handleScanSuccess_second (sc : Scope) (s : State) :
  left (handsDetectedRef s) = true -> right (handsDetectedRef s) = false ->
  handleScanSuccess sc s =
  (setScanning false ;; setDetectionCount (fun _ => 0) ;;
   setHandsDetected (fun prev => mkHandsDetected (left prev) true) ;;
   setStep complete ;; stopCamera sc ;; setTimeout SetShowVideoTrue 1000) s.
Proof. intros L R; unfold handleScanSuccess; rewrite L, R; reflexivity. Qed.

Lemma handleScanSuccess_done (sc : Scope) (s : State) :
  left (handsDetectedRef s) = true -> right (handsDetectedRef s) = true ->
  handleScanSuccess sc s =
  (setScanning false ;; setDetectionCount (fun _ => 0)) s.
Proof. intros L R; unfold handleScanSuccess; rewrite L, R; reflexivity. Qed.

(** [stopCamera] in a scope whose [stream] is null, while the cells hold
    the frame request to come and a detector, and the camera video is
    mounted. *)
Lemma stopCamera_stale (sc : Scope) (s : State) (id : nat) (h : Hands) :
  c_stream sc = None ->
  animationFrameRef s = Some id -> pendingFrame s = Some id ->
  handsRef s = Some h -> showVideo s = false ->
  stopCamera sc s =
  (set_pendingFrame None ;; set_animationFrameRef None ;;
   set_handsRef None ;; set_videoSrcObject None) s.
Proof.
  intros C Ha Hp Hh V; destruct s; cbn in Ha, Hp, Hh, V; subst.
  unfold stopCamera; rewrite C.
  unfold seq, skip, setStream, stopTracks, cancelAnimationFrame, videoMounted.
  cbn [animationFrameRef pendingFrame sameFrame]. cbv beta.
  rewrite Nat.eqb_refl. reflexivity.
Qed.

(** [stopCamera] in the scope of the render that shows the stream. *)
Lemma stopCamera_current (sc : Scope) (s : State) (m : MediaStream) :
  c_stream sc = Some m -> ~ In m (liveTracks (stopCamera sc s)).
Proof.
  intros C; unfold stopCamera; rewrite C. destruct s.
  unfold seq, stopTracks, setStream, cancelAnimationFrame, videoMounted.
  cbn [liveTracks set_liveTracks set_stream animationFrameRef].
  cbv beta.
  destruct animationFrameRef0 as [a|], handsRef0 as [h0|], showVideo0;
    cbv beta iota zeta delta -[remove Nat.eq_dec In Nat.eqb];
    try destruct (match pendingFrame0 with Some i => Nat.eqb i a | None => false end);
    apply remove_In.
Qed.

(** What a frame does when the tally reaches the threshold, up to the
    confirmation handler. *)
Ltac reach_step h m id Hr Hc :=
  frame_step h m id;
  rewrite onResults_hand by (assumption || reflexivity);
  rewrite countDetection_reached by exact Hc;
  rewrite (fire_last 0%nat (HandleScanSuccess (listener h)) [])
    by (reflexivity || constructor);
  unfold runTask.

(** The threshold is reached while no hand is confirmed yet. *)
Lemma first_confirmation (r : Results) (s : State) :
  tracking s = true -> handsFound r = true ->
  detectionThreshold <= detectionCount s + 1 ->
  left (handsDetected s) = false ->
  let s' := dispatch (AnimationFrame (Delivered r)) s in
  tracking s' = true /\ step s' = right_hand
  /\ handsDetected s' = mkHandsDetected true (right (handsDetected s))
  /\ detectionCount s' = 0
  /\ stream s' = stream s /\ liveTracks s' = liveTracks s
  /\ handsRef s' = handsRef s.
Proof.
  intros H Hr Hc L s'; subst s'. open_tracking s H.
  reach_step h m id Hr Hc.
  rewrite handleScanSuccess_first by exact L.
  rewrite commit_in_sync by apply sameStream_refl.
  exec. same. auto 10.
Qed.

(** The threshold is reached after the first hand was confirmed, in a
    session whose listener is stale. *)
Lemma second_confirmation (r : Results) (s : State) :
  tracking s = true -> staleListener s = true -> handsFound r = true ->
  detectionThreshold <= detectionCount s + 1 ->
  handsDetected s = mkHandsDetected true false ->
  let s' := dispatch (AnimationFrame (Delivered r)) s in
  finished s' /\ stream s' = stream s /\ liveTracks s' = liveTracks s.
Proof.
  intros H St Hr Hc Hd s'; subst s'. open_tracking s H.
  cbn in St. destruct h as [[cs cm]]; cbn in St.
  destruct cs; [discriminate St|clear St].
  reach_step (mkHands (mkScope None cm)) m id Hr Hc.
  rewrite handleScanSuccess_second by reflexivity.
  unfold seq.
  rewrite (stopCamera_stale _ _ nextFrameId0 (mkHands (mkScope None cm)))
    by reflexivity.
  rewrite commit_in_sync by apply sameStream_refl.
  unfold finished. exec. auto 12.
Qed.

(** ** Runs of frames *)

(** What two states that agree besides the pump have in common. *)
Lemma besidesPump_fields (a b : State) :
  besidesPump a = besidesPump b ->
  step a = step b /\ handsDetected a = handsDetected b
  /\ stream a = stream b /\ liveTracks a = liveTracks b
  /\ handsRef a = handsRef b /\ error a = error b
  /\ console a = console b.
Proof.
  destruct a, b; unfold besidesPump; cbn.
  intros E; injection E; intros; subst; auto 10.
Qed.

Lemma allWithHands_cons (r : Results) (rs : list Results) :
  allWithHands (r :: rs) = true ->
  handsFound r = true /\ allWithHands rs = true.
Proof. intros H; apply andb_prop in H; exact H. Qed.

Lemma allWithHands_app (rs1 rs2 : list Results) :
  allWithHands (rs1 ++ rs2) = true ->
  allWithHands rs1 = true /\ allWithHands rs2 = true.
Proof.
  unfold allWithHands; rewrite forallb_app; intros H.
  apply andb_prop in H; exact H.
Qed.

(** Frames with a hand, as long as the threshold is not reached, do nothing
    but count. *)
Lemma hand_frames_count (rs : list Results) :
  forall s : State,
    tracking s = true -> allWithHands rs = true ->
    detectionCount s + Z.of_nat (List.length rs) < detectionThreshold ->
    let s' := run (frames rs) s in
    tracking s' = true /\ besidesPump s' = besidesPump s
    /\ detectionCount s' = detectionCount s + Z.of_nat (List.length rs).
Proof.
  induction rs as [|r rs IH]; intros s H Hrs Hc.
  - cbn [frames map run List.length Z.of_nat]. rewrite Z.add_0_r. auto.
  - destruct (allWithHands_cons _ _ Hrs) as [Hr Hrs'].
    cbn [List.length] in Hc. rewrite Nat2Z.inj_succ in Hc.
    destruct (hand_frame_counts r s H Hr ltac:(lia)) as (H1 & E1 & C1).
    cbn [frames map]. rewrite run_cons.
    destruct (IH _ H1 Hrs' ltac:(fold (frames rs); lia)) as (H2 & E2 & C2).
    fold (frames rs). cbv zeta.
    split; [exact H2|]. split; [congruence|].
    rewrite C2, C1. cbn [List.length]. lia.
Qed.

Lemma frames_app (rs1 rs2 : list Results) :
  frames (rs1 ++ rs2) = frames rs1 ++ frames rs2.
Proof. apply map_app. Qed.

(** A list of [S n] results is [n] results and a last one. *)
Lemma last_result (n : nat) (rs : list Results) :
  List.length rs = S n -> allWithHands rs = true ->
  exists rs' r, rs = rs' ++ [r] /\ List.length rs' = n
                /\ allWithHands rs' = true /\ handsFound r = true.
Proof.
  intros Hl Hrs.
  destruct (exists_last (l := rs)) as (rs' & r & E).
  { intros ->; discriminate Hl. }
  subst rs. rewrite length_app in Hl; cbn in Hl.
  apply allWithHands_app in Hrs; destruct Hrs as [H1 H2].
  exists rs', r. repeat split; [lia|exact H1|].
  apply allWithHands_cons in H2; tauto.
Qed.

Lemma allWithHands_firstn (k : nat) (rs : list Results) :
  allWithHands rs = true -> allWithHands (firstn k rs) = true.
Proof.
  intros H; rewrite <- (firstn_skipn k rs) in H.
  apply allWithHands_app in H; tauto.
Qed.

(** ** What the commit and the timeouts leave alone *)

(** Reduces the field updates and the field reads of the goal. *)
Ltac fields_red :=
  cbv beta iota zeta delta
    [step stream error scanning handsDetected showVideo
      detectionCount mediapipeLoaded handsRef animationFrameRef
      drawingUtilsRef stepRef scanningRef handsDetectedRef
      videoSrcObject committedStream liveTracks pendingFrame
      nextFrameId timers console set_step set_stream set_error
      set_scanning set_handsDetected set_showVideo set_detectionCount
      set_mediapipeLoaded set_handsRef set_animationFrameRef
      set_drawingUtilsRef set_stepRef set_scanningRef
      set_handsDetectedRef set_videoSrcObject set_committedStream
      set_liveTracks set_pendingFrame set_nextFrameId set_timers
      set_console
      seq skip].

(** Splits on the tests left in the goal, innermost first, reducing the
    fields in between. *)
Ltac split_tests :=
  repeat (fields_red;
          match goal with
          | |- context [match ?c with _ => _ end] =>
              lazymatch c with
              | context [match _ with _ => _ end] => fail
              | _ => destruct c
              end
          end);
  fields_red.

Lemma entities_inv (a b : State) :
  entities a = entities b ->
  step a = step b /\ detectionCount a = detectionCount b
  /\ handsDetected a = handsDetected b.
Proof. unfold entities; intros E; injection E; auto. Qed.

Lemma streamEffect_fields (s : State) :
  entities (streamEffect s) = entities s
  /\ stepRef (streamEffect s) = stepRef s
  /\ handsDetectedRef (streamEffect s) = handsDetectedRef s
  /\ timers (streamEffect s) = timers s
  /\ showVideo (streamEffect s) = showVideo s.
Proof.
  destruct s.
  unfold streamEffect, streamCleanup, stopTracks, cancelAnimationFrame, entities.
  split_tests; auto.
Qed.

Lemma commit_fields (s : State) :
  entities (commitEffects s) = entities s
  /\ stepRef (commitEffects s) = step s
  /\ handsDetectedRef (commitEffects s) = handsDetected s
  /\ timers (commitEffects s) = timers s
  /\ showVideo (commitEffects s) = showVideo s.
Proof.
  unfold commitEffects, seq.
  destruct (streamEffect_fields (syncRefs s)) as (E & S & Hd & T & V).
  rewrite E, S, Hd, T, V. destruct s; auto 6.
Qed.

(** ** The frame event in general *)

Lemma taken_fields (s : State) :
  stepRef (set_pendingFrame None s) = stepRef s
  /\ detectionCount (set_pendingFrame None s) = detectionCount s.
Proof. destruct s; auto. Qed.

Lemma handler_frame_cases (o : SendOutcome) (s : State) :
  frameResult s (handler (AnimationFrame o) s).
Proof.
  unfold handler. destruct (pendingFrame s) eqn:Hp; [|apply frame_none; exact Hp].
  unfold seq, captureFrame, seq.
  destruct (taken_fields s) as [ER EC].
  set (x := set_pendingFrame None s) in *.
  destruct (handsRef x) as [h|]; [|apply frame_idle].
  destruct (videoMounted x && videoReady x); [|apply frame_idle].
  destruct o as [r|]; [|apply frame_failed].
  unfold onResults.
  destruct (negb (canvasMounted x) || negb (drawingUtilsRef x));
    [apply frame_idle|].
  rewrite ER.
  destruct (awaitingHand (stepRef s)) eqn:A;
    [|destruct (handsFound r); apply frame_idle].
  destruct (handsFound r).
  - destruct (Z.lt_ge_cases (detectionCount x + 1) detectionThreshold) as [Hc|Hc].
    + rewrite countDetection_below by exact Hc. rewrite EC.
      apply frame_counted; [exact A|rewrite <- EC; exact Hc].
    + rewrite countDetection_reached by exact Hc.
      apply frame_reached; [exact A|rewrite <- EC; exact Hc].
  - apply frame_cleared; exact A.
Qed.

(** What a frame event does to the tally. *)
Lemma frameResult_tally (s s1 : State) :
  frameResult s s1 ->
  detectionCount s1 = detectionCount s \/ detectionCount s1 = 0
  \/ (detectionCount s1 = detectionCount s + 1
      /\ detectionCount s + 1 < detectionThreshold).
Proof.
  destruct 1; destruct s; cbn in *; auto.
Qed.

(** A frame event leaves the step and the flags alone, and registers at
    most the timeout of the confirmation handler. *)
Lemma frameResult_fields (s s1 : State) :
  frameResult s s1 ->
  step s1 = step s /\ stepRef s1 = stepRef s
  /\ handsDetected s1 = handsDetected s
  /\ handsDetectedRef s1 = handsDetectedRef s
  /\ (timers s1 = timers s
      \/ (exists sc, timers s1 = timers s ++ [mkTimeout (HandleScanSuccess sc) 0]
                     /\ awaitingHand (stepRef s) = true)).
Proof.
  destruct 1; destruct s; cbn in *; repeat split; eauto.
Qed.

(** ** The tally stays below the threshold *)

Lemma preserves_seq (P : State -> Prop) (a b : Action) :
Preserves P a -> Preserves P b -> Preserves P (a ;; b).
Proof. intros Ha Hb s Hs; unfold seq; auto. Qed.

(** Closes [bounded] goals on a state given field by field. *)
Ltac tally :=
  intros s B; destruct s; unfold bounded, detectionThreshold in *;
  cbn [detectionCount] in B.

Lemma stopCamera_bounded (sc : Scope) : Preserves bounded (stopCamera sc).
Proof.
  tally.
  unfold stopCamera, stopTracks, setStream, cancelAnimationFrame, videoMounted.
  destruct (c_stream sc); split_tests; exact B.
Qed.

Lemma handleScanSuccess_bounded (sc : Scope) :
  Preserves bounded (handleScanSuccess sc).
Proof.
  intros s B. unfold handleScanSuccess.
  destruct (negb (left (handsDetectedRef s)));
    [|destruct (negb (right (handsDetectedRef s)))].
  - destruct s; unfold bounded, detectionThreshold; cbn; lia.
  - unfold seq. 
    assert (B0 : bounded (setStep complete
              (setHandsDetected (fun prev => mkHandsDetected (left prev) true)
                 (setDetectionCount (fun _ => 0) (setScanning false s))))).
    { destruct s; unfold bounded, detectionThreshold; cbn; lia. }
    apply stopCamera_bounded with (sc := sc) in B0.
    destruct (stopCamera sc _); exact B0.
  - destruct s; unfold bounded, detectionThreshold; cbn; lia.
Qed.

Lemma initializeHandDetection_bounded (sc : Scope) :
  Preserves bounded (initializeHandDetection sc).
Proof.
  tally.
  unfold initializeHandDetection, cancelAnimationFrame, videoMounted,
    canvasMounted, videoReady.
  split_tests; exact B.
Qed.

Lemma requestCameraPermission_bounded (sc : Scope) (o : CameraOutcome) :
  Preserves bounded (requestCameraPermission sc o).
Proof.
  tally.
  unfold requestCameraPermission, cameraDenied, setError, setStream, setStep,
    setScanning, consoleError, setTimeout, videoMounted.
  destruct (negb (c_mediapipeLoaded sc)), o; split_tests; exact B.
Qed.

Lemma resetScan_bounded (sc : Scope) : Preserves bounded (resetScan sc).
Proof.
  intros s _. unfold resetScan, seq.
  destruct (stopCamera sc s); unfold bounded, detectionThreshold; cbn; lia.
Qed.

Lemma runTask_bounded (t : Task) : Preserves bounded (runTask t).
Proof.
  destruct t; cbn [runTask];
    auto using handleScanSuccess_bounded, initializeHandDetection_bounded.
  tally; exact B.
Qed.

Lemma runTasks_bounded (l : list Timeout) : Preserves bounded (runTasks l).
Proof.
  induction l as [|t l IH]; cbn [runTasks]; [intros s B; exact B|].
  apply preserves_seq; [apply runTask_bounded|exact IH].
Qed.

Lemma fire_bounded (ms : nat) : Preserves bounded (fire ms).
Proof.
  intros s B; unfold fire; cbv zeta.
  apply runTasks_bounded. destruct s; exact B.
Qed.

Lemma fireOldest_bounded (ms : nat) : Preserves bounded (fireOldest ms).
Proof.
  intros s B; unfold fireOldest.
  destruct (oldest ms (timers s)) as [[t rest]|]; [|exact B].
  apply runTask_bounded. destruct s; exact B.
Qed.

Lemma commitEffects_bounded : Preserves bounded commitEffects.
Proof.
  intros s B; unfold bounded.
  destruct (commit_fields s) as (E & _).
  apply entities_inv in E; destruct E as (_ & E & _). rewrite E; exact B.
Qed.

Lemma settle_bounded : Preserves bounded settle.
Proof.
  apply preserves_seq; [apply fire_bounded|apply commitEffects_bounded].
Qed.

Lemma handler_bounded (e : Event) : Preserves bounded (handler e).
Proof.
  destruct e.
  - tally; exact B.
  - tally; exact B.
  - intros s B; unfold handler.
    destruct (ScanStep_eqb (step s) idle); [|exact B].
    apply requestCameraPermission_bounded, B.
  - apply fireOldest_bounded.
  - intros s B.
    destruct (frameResult_tally _ _ (handler_frame_cases o s))
      as [E|[E|[E Hc]]];
      unfold bounded, detectionThreshold in *; rewrite E; lia.
  - apply fire_bounded.
  - intros s B; unfold handler.
    destruct (awaitingHand (step s)); [apply resetScan_bounded|]; exact B.
  - intros s B; unfold handler.
    destruct (ScanStep_eqb (step s) complete && showVideo s);
      [apply resetScan_bounded|]; exact B.
  - intros s B; unfold handler.
    destruct (negb (ScanStep_eqb (step s) idle)
              && negb (ScanStep_eqb (step s) complete));
      [apply stopCamera_bounded|]; exact B.
Qed.

Lemma dispatch_bounded (e : Event) : Preserves bounded (dispatch e).
Proof. apply preserves_seq; [apply handler_bounded|apply settle_bounded]. Qed.

Lemma run_bounded (es : list Event) : Preserves bounded (run es).
Proof.
  induction es as [|e es IH]; intros s B; [exact B|].
  rewrite run_cons. apply IH, dispatch_bounded, B.
Qed.

(** ** Timeouts between events *)

Lemma stopCamera_fields (sc : Scope) (s : State) :
  entities (stopCamera sc s) = entities s
  /\ timers (stopCamera sc s) = timers s
  /\ handsDetectedRef (stopCamera sc s) = handsDetectedRef s
  /\ stepRef (stopCamera sc s) = stepRef s
  /\ showVideo (stopCamera sc s) = showVideo s.
Proof.
  destruct s.
  unfold stopCamera, stopTracks, setStream, cancelAnimationFrame, videoMounted,
    entities.
  destruct (c_stream sc); split_tests; auto.
Qed.

(** The timeouts after the confirmation handler: as before, or with the
    reveal added. *)
Lemma handleScanSuccess_timers (sc : Scope) (s : State) :
  timers (handleScanSuccess sc s) = timers s
  \/ timers (handleScanSuccess sc s) = timers s ++ [mkTimeout SetShowVideoTrue 1000].
Proof.
  unfold handleScanSuccess.
  destruct (negb (left (handsDetectedRef s)));
    [|destruct (negb (right (handsDetectedRef s)))].
  - left; destruct s; reflexivity.
  - right. unfold seq.
    set (x := setStep complete _).
    assert (Ex : timers x = timers s) by (destruct s; reflexivity).
    destruct (stopCamera_fields sc x) as (_ & T & _).
    rewrite <- Ex, <- T. destruct (stopCamera sc x); reflexivity.
  - left; destruct s; reflexivity.
Qed.

Lemma initializeHandDetection_fields (sc : Scope) (s : State) :
  entities (initializeHandDetection sc s) = entities s
  /\ timers (initializeHandDetection sc s) = timers s
  /\ handsDetectedRef (initializeHandDetection sc s) = handsDetectedRef s
  /\ stepRef (initializeHandDetection sc s) = stepRef s.
Proof.
  destruct s.
  unfold initializeHandDetection, cancelAnimationFrame, videoMounted,
    canvasMounted, videoReady, entities.
  split_tests; auto.
Qed.

Lemma noneDue_app (ms : nat) (l : list Timeout) (t : Timeout) :
  noneDue ms l -> delay t <> ms -> noneDue ms (l ++ [t]).
Proof.
  intros Hl Ht; apply Forall_app; split; [exact Hl|].
  constructor; [exact Ht|constructor].
Qed.

Lemma runTask_noneDue (t : Task) :
  Preserves (fun s => noneDue 0 (timers s)) (runTask t).
Proof.
  intros s H; destruct t as [sc|sc|]; cbn [runTask].
  - destruct (handleScanSuccess_timers sc s) as [E|E]; rewrite E; [exact H|].
    apply noneDue_app; [exact H|cbn; discriminate].
  - destruct (initializeHandDetection_fields sc s) as (_ & E & _).
    rewrite E; exact H.
  - destruct s; exact H.
Qed.

Lemma runTasks_noneDue (l : list Timeout) :
  Preserves (fun s => noneDue 0 (timers s)) (runTasks l).
Proof.
  induction l as [|t l IH]; cbn [runTasks]; [intros s H; exact H|].
  apply preserves_seq; [apply runTask_noneDue|exact IH].
Qed.

Lemma filter_rest_noneDue (ms : nat) (l : list Timeout) :
  noneDue ms (filter (fun t => negb (Nat.eqb (delay t) ms)) l).
Proof.
  apply Forall_forall; intros t Ht.
  apply filter_In in Ht; destruct Ht as [_ Ht].
  apply negb_true_iff, Nat.eqb_neq in Ht; exact Ht.
Qed.

(** Once the zero-delay timeouts have run, none is left. *)
Lemma fire_clears (s : State) : noneDue 0 (timers (fire 0 s)).
Proof.
  unfold fire; cbv zeta. apply runTasks_noneDue.
  destruct s; cbn [timers set_timers]. apply filter_rest_noneDue.
Qed.

Lemma dispatch_quiet (e : Event) (s : State) : quiet (dispatch e s).
Proof.
  rewrite dispatch_eq.
  destruct (commit_fields (fire 0 (handler e s))) as (E & _ & Hd & T & _).
  apply entities_inv in E; destruct E as (_ & _ & E).
  split; [rewrite T; apply fire_clears|congruence].
Qed.

Lemma initial_quiet : quiet initial.
Proof. split; [constructor|reflexivity]. Qed.

Lemma run_quiet (es : list Event) (s : State) : quiet s -> quiet (run es s).
Proof.
  revert s; induction es as [|e es IH]; intros s H; [exact H|].
  rewrite run_cons; apply IH, dispatch_quiet.
Qed.

(** Between two events the step cell holds the step. *)
Lemma run_step_cell (es : list Event) (s : State) :
  stepRef s = step s -> stepRef (run es s) = step (run es s).
Proof.
  revert s; induction es as [|e es IH]; intros s H; [exact H|].
  rewrite run_cons; apply IH. rewrite dispatch_eq.
  destruct (commit_fields (fire 0 (handler e s))) as (E & Sc & _).
  apply entities_inv in E. destruct E as (E & _). congruence.
Qed.

(** ** One confirmation at a time *)

Lemma handleScanSuccess_flags (sc : Scope) (s : State) :
  handsDetectedRef s = handsDetected s ->
  oneConfirmation (handsDetected s) (handsDetected (handleScanSuccess sc s)).
Proof.
  intros R. unfold handleScanSuccess, oneConfirmation. rewrite R.
  destruct (handsDetected s) as [l r] eqn:Hd; cbn [left right negb].
  destruct l; cbn [negb]; [destruct r; cbn [negb]|].
  - left. destruct s; cbn in *; congruence.
  - right; right. unfold seq.
    set (x := setStep complete _).
    assert (Ex : handsDetected x = mkHandsDetected true true).
    { destruct s; cbn in *. subst; reflexivity. }
    destruct (stopCamera_fields sc x) as (E & _).
    apply entities_inv in E; destruct E as (_ & _ & E).
    rewrite <- Ex, <- E. destruct (stopCamera sc x); auto.
  - right; left. destruct s; cbn in *. subst; auto.
Qed.

(** A frame event, timeouts and commit included, makes at most one
    confirmation. *)
Lemma frame_oneConfirmation (o : SendOutcome) (s : State) :
  quiet s ->
  oneConfirmation (handsDetected s)
    (handsDetected (dispatch (AnimationFrame o) s)).
Proof.
  intros [Q R]. rewrite dispatch_eq.
  destruct (commit_fields (fire 0 (handler (AnimationFrame o) s))) as (E & _).
  apply entities_inv in E; destruct E as (_ & _ & E); rewrite E; clear E.
  destruct (frameResult_fields _ _ (handler_frame_cases o s))
    as (_ & _ & Hd & HdR & [T|(sc & T & _)]).
  - rewrite fire_none by (rewrite T; exact Q). rewrite Hd. left; reflexivity.
  - rewrite (fire_last 0%nat _ _ _ T Q); cbn [runTask].
    set (x := set_timers _ _).
    assert (Ex : handsDetected x = handsDetected s
                 /\ handsDetectedRef x = handsDetected s).
    { subst x. destruct (handler (AnimationFrame o) s); cbn in *.
      split; congruence. }
    destruct Ex as [Ex ExR]. rewrite <- Ex.
    apply handleScanSuccess_flags; congruence.
Qed.

(** ** After both hands are confirmed *)

Lemma reveals_noneDue (l : list Timeout) :
  Forall (fun t => t = reveal) l -> noneDue 0 l.
Proof.
  intros H; eapply Forall_impl; [|exact H].
  intros t ->; cbn; discriminate.
Qed.

Lemma reveals_filter (l : list Timeout) :
  Forall (fun t => t = reveal) l ->
  filter (fun t => Nat.eqb (delay t) 1000) l = l
  /\ filter (fun t => negb (Nat.eqb (delay t) 1000)) l = [].
Proof.
  induction 1 as [|t l Ht _ [IH1 IH2]]; [split; reflexivity|].
  subst t. cbn [filter]. 
  change (Nat.eqb (delay reveal) 1000) with true; cbn [negb].
  rewrite IH1, IH2; split; reflexivity.
Qed.

Lemma runTasks_reveals (l : list Timeout) :
  Forall (fun t => t = reveal) l ->
  forall x : State,
    entities (runTasks l x) = entities x /\ timers (runTasks l x) = timers x
    /\ stepRef (runTasks l x) = stepRef x.
Proof.
  induction 1 as [|t l Ht _ IH]; intros x; [auto|].
  subst t; cbn [runTasks seq reveal task runTask].
  destruct (IH (setShowVideo true x)) as (E & T & S).
  rewrite E, T, S. destruct x; auto.
Qed.

Lemma fire_reveals (s : State) :
  Forall (fun t => t = reveal) (timers s) ->
  entities (fire 1000 s) = entities s /\ timers (fire 1000 s) = []
  /\ stepRef (fire 1000 s) = stepRef s.
Proof.
  intros H; unfold fire; cbv zeta.
  destruct (reveals_filter _ H) as [E1 E2]; rewrite E1, E2.
  destruct (runTasks_reveals _ H (set_timers [] s)) as (E & T & S).
  rewrite E, T, S. destruct s; auto.
Qed.

Lemma frameResult_ignored (s s1 : State) :
  frameResult s s1 -> awaitingHand (stepRef s) = false ->
  entities s1 = entities s /\ timers s1 = timers s.
Proof.
  destruct 1; intros A; try congruence; destruct s; auto.
Qed.

(** Where no timeout of [ms] waits, none is the oldest. *)
Lemma oldest_none (ms : nat) (l : list Timeout) :
  noneDue ms l -> oldest ms l = None.
Proof.
  induction 1 as [|t l Ht _ IH]; [reflexivity|].
  cbn [oldest]. apply Nat.eqb_neq in Ht. rewrite Ht, IH. reflexivity.
Qed.

Lemma reveals_none_oldest (l : list Timeout) :
  Forall (fun t => t = reveal) l -> oldest 500 l = None.
Proof.
  intros T. apply oldest_none.
  eapply Forall_impl; [|exact T]. intros t ->. discriminate.
Qed.

Lemma halted_handler (e : Event) (s : State) :
  halted s -> resets e = false ->
  entities (handler e s) = entities s
  /\ Forall (fun t => t = reveal) (timers (handler e s)).
Proof.
  intros (St & SR & T) Hr; destruct e; try discriminate Hr.
  - destruct s; auto.
  - destruct s; auto.
  - unfold handler; rewrite St; auto.
  - unfold handler, fireOldest. rewrite (reveals_none_oldest _ T). auto.
  - destruct (frameResult_ignored _ _ (handler_frame_cases o s)) as [E Et].
    { rewrite SR; reflexivity. }
    rewrite E, Et; auto.
  - cbn [handler]. destruct (fire_reveals s T) as (E & Et & _).
    rewrite E, Et; auto.
  - unfold handler; rewrite St; auto.
  - unfold handler; rewrite St; auto.
Qed.

Lemma halted_dispatch (e : Event) (s : State) :
  halted s -> resets e = false ->
  halted (dispatch e s) /\ entities (dispatch e s) = entities s.
Proof.
  intros H Hr. destruct (halted_handler e s H Hr) as [E T].
  rewrite dispatch_eq, (fire_none 0) by (apply reveals_noneDue; exact T).
  destruct (commit_fields (handler e s)) as (Ec & Sc & _ & Tc & _).
  destruct H as (St & _).
  pose proof (entities_inv _ _ E) as (E1 & _).
  pose proof (entities_inv _ _ Ec) as (Ec1 & _).
  split; [|congruence].
  split; [congruence|]. split; [congruence|]. rewrite Tc; exact T.
Qed.

(** Nothing changes the entities of a halted page but a reset. *)
Lemma halted_run (es : list Event) :
  forall s : State,
    halted s -> forallb (fun e => negb (resets e)) es = true ->
    halted (run es s) /\ entities (run es s) = entities s.
Proof.
  induction es as [|e es IH]; intros s H Hes; [auto|].
  cbn [forallb] in Hes; apply andb_prop in Hes; destruct Hes as [He Hes].
  apply negb_true_iff in He.
  destruct (halted_dispatch e s H He) as [H1 E1].
  rewrite run_cons. destruct (IH _ H1 Hes) as [H2 E2].
  split; [exact H2|congruence].
Qed.

Lemma finished_halted (s : State) : finished s -> halted s.
Proof.
  intros (St & SR & _ & _ & _ & _ & _ & _ & T).
  repeat split; try assumption. rewrite T; repeat constructor.
Qed.

(** ** The camera after the scan *)

(** A reset clicked while a hand is awaited runs [stopCamera] in the scope
    of the render that shows the stream, and stops its tracks. *)
Lemma reset_stops_the_tracks (s : State) (m : MediaStream) :
  stream s = Some m -> ~ In m (liveTracks (resetScan (scope s) s)).
Proof.
  intros Hm. unfold resetScan, seq.
  pose proof (stopCamera_current (scope s) s m) as H.
  cbn [scope c_stream] in H. specialize (H Hm).
  destruct (stopCamera (scope s) s); exact H.
Qed.

(** A reset once the left hand is confirmed in the sample session. *)
Lemma reset_stops_the_tracks_witness :
  ~ In 7%nat (liveTracks (resetScan (scope leftDone) leftDone)).
Proof.
  apply (reset_stops_the_tracks leftDone 7%nat); vm_compute; reflexivity.
Defined.

(** The sample session: the tracks of stream 7 run on after the scan is
    complete and after the reveal, until the button that resets. *)
Example camera_runs_after_completion :
  liveTracks bothDone = [7%nat]
  /\ liveTracks (run [RevealDue] bothDone) = [7%nat]
  /\ step (run [RevealDue] bothDone) = complete
  /\ showVideo (run [RevealDue] bothDone) = true
  /\ liveTracks (run [RevealDue; ClickBackToHome] bothDone) = []
  /\ liveTracks (run [ClickReset] leftDone) = [].
Proof. repeat split; vm_compute; reflexivity. Qed.


(** * The claims *)

(** C1, as the code has it.  When the analysis of a frame throws while a
    hand is awaited, the frame is skipped: the step, the tally and both
    flags keep their values (the tally is neither cleared nor raised), the
    user-visible error message is untouched, the failure is written to the
    console, and the loop goes on (the session is still tracking, with the
    next captureFrame call to come). *)
Theorem failed_analysis_skips_the_frame (s : State) :
  tracking s = true ->
  let s' := dispatch (AnimationFrame SendFailed) s in
  entities s' = entities s /\ error s' = error s
  /\ console s' = console s ++ [msgSend] /\ tracking s' = true.
Proof.
  intros H s'; subst s'.
  destruct (failed_frame_skips s H) as (H1 & E & C).
  apply besidesPump_fields in E.
  destruct E as (Es & Ehd & _ & _ & _ & Ee & Ec).
  unfold entities. rewrite Es, C, Ehd, Ee, Ec.
  destruct s; auto.
Qed.

(** C1 at the sample session, fifteen frames in. *)
Lemma failed_analysis_skips_the_frame_witness :
  let s' := dispatch (AnimationFrame SendFailed) midTally in
  entities s' = entities midTally /\ error s' = error midTally
  /\ console s' = console midTally ++ [msgSend] /\ tracking s' = true.
Proof.
  apply (failed_analysis_skips_the_frame midTally);
    vm_compute; reflexivity.
Defined.

(** C1, as stated, fails.  Fifteen frames into a session the tally is 15;
    a frame whose analysis throws leaves it at 15, where a frame without a
    hand clears it. *)
Lemma failed_analysis_keeps_the_tally :
  tracking midTally = true /\ step midTally = left_hand
  /\ detectionCount midTally = 15
  /\ detectionCount (dispatch (AnimationFrame SendFailed) midTally) = 15
  /\ detectionCount (dispatch (AnimationFrame (Delivered (found 0))) midTally) = 0
  /\ detectionCount (dispatch (AnimationFrame SendFailed) midTally) <> 0.
Proof.
  repeat split; try (vm_compute; reflexivity).
  vm_compute; discriminate.
Qed.

(** C2.  After every event of every run from the initial state the tally
    is a count strictly below the threshold; and when the listener sees a
    hand while the tally is one short of the threshold, it leaves the tally
    at 0, not at the threshold. *)
Theorem tally_below_threshold (es : list Event) :
  let s := run es initial in
  0 <= detectionCount s < detectionThreshold
  /\ (forall (sc : Scope) (r : Results),
        showVideo s = false -> drawingUtilsRef s = true ->
        awaitingHand (stepRef s) = true -> handsFound r = true ->
        detectionThreshold <= detectionCount s + 1 ->
        detectionCount (onResults sc r s) = 0).
Proof.
  cbv zeta. split.
  - apply (run_bounded es initial). unfold bounded, detectionThreshold; cbn; lia.
  - intros sc r V D A Hr Hc.
    rewrite onResults_hand by assumption.
    rewrite countDetection_reached by exact Hc.
    destruct (run es initial); reflexivity.
Qed.

(** C3.  With the threshold at 30, from a state awaiting the left hand with
    tally 0 and no hand confirmed, thirty frames in a row that each show
    one or more hands confirm the left hand: [left] is true, the step is
    ['right-hand'], the tally is 0 and [right] is still false.  No shorter
    run does: after [k < 30] of these frames the step and the flags are as
    before and the tally is [k]. *)
Theorem left_hand_confirmed_by_thirty_frames (s : State) (rs : list Results) :
  tracking s = true -> step s = left_hand -> detectionCount s = 0 ->
  handsDetected s = mkHandsDetected false false ->
  List.length rs = 30%nat -> allWithHands rs = true ->
  (let s' := run (frames rs) s in
   left (handsDetected s') = true /\ step s' = right_hand
   /\ detectionCount s' = 0 /\ right (handsDetected s') = false)
  /\ (forall k : nat, (k < 30)%nat ->
      let sk := run (frames (firstn k rs)) s in
      step sk = left_hand /\ handsDetected sk = mkHandsDetected false false
      /\ detectionCount sk = Z.of_nat k).
Proof.
  intros H St Hc Hd Hl Hrs. split.
  - destruct (last_result 29 rs Hl Hrs) as (rs' & r & -> & Hl' & Hrs' & Hr).
    rewrite frames_app, run_app. cbv zeta.
    destruct (hand_frames_count rs' s H Hrs') as (H1 & E1 & C1).
    { rewrite Hc, Hl'. unfold detectionThreshold. lia. }
    apply besidesPump_fields in E1. destruct E1 as (_ & Ehd & _).
    cbn [frames map]. rewrite run_cons. cbn [run].
    destruct (first_confirmation r _ H1 Hr) as (_ & S2 & D2 & C2 & _).
    { rewrite C1, Hc, Hl'. unfold detectionThreshold. lia. }
    { rewrite Ehd, Hd. reflexivity. }
    rewrite D2, S2, C2, Ehd, Hd. auto.
  - intros k Hk sk; subst sk.
    assert (Hlk : List.length (firstn k rs) = k).
    { rewrite length_firstn. lia. }
    destruct (hand_frames_count (firstn k rs) s H (allWithHands_firstn k rs Hrs))
      as (_ & E1 & C1).
    { rewrite Hc, Hlk. unfold detectionThreshold. lia. }
    apply besidesPump_fields in E1. destruct E1 as (Es & Ehd & _).
    rewrite Es, Ehd, C1, Hlk, Hc, St, Hd. auto.
Qed.

(** C3 at the sample session, from its start. *)
Lemma left_hand_confirmed_by_thirty_frames_witness :
  left (handsDetected leftDone) = true /\ step leftDone = right_hand
  /\ detectionCount leftDone = 0 /\ right (handsDetected leftDone) = false.
Proof.
  apply (left_hand_confirmed_by_thirty_frames started (repeat (found 1) 30));
    vm_compute; reflexivity.
Defined.

(** C4, as the code has it.  After the left hand is confirmed, thirty more
    frames with a hand while the step is ['right-hand'] confirm the right
    hand and complete the scan; the listener's [stopCamera] cancels the
    frame request, drops the detector and detaches the camera video, and one
    reveal timeout is registered, which sets [showVideo] when it elapses and
    is gone afterwards; from then on no event but a reset changes the step,
    the tally or the flags.  The listener was registered by the render in
    which [stream] was still null, so its [stopCamera] does not stop the
    tracks: the stream [m] is still held and its tracks still run. *)
Theorem right_hand_confirmed_by_thirty_more_frames
    (s : State) (rs : list Results) (m : MediaStream) :
  tracking s = true -> staleListener s = true ->
  step s = right_hand -> handsDetected s = mkHandsDetected true false ->
  detectionCount s = 0 ->
  stream s = Some m -> existsb (Nat.eqb m) (liveTracks s) = true ->
  List.length rs = 30%nat -> allWithHands rs = true ->
  let s' := run (frames rs) s in
  (step s' = complete /\ handsDetected s' = mkHandsDetected true true
   /\ detectionCount s' = 0)
  /\ (handsRef s' = None /\ pendingFrame s' = None
      /\ animationFrameRef s' = None /\ videoSrcObject s' = None)
  /\ (timers s' = [reveal]
      /\ showVideo (dispatch RevealDue s') = true
      /\ timers (dispatch RevealDue s') = [])
  /\ (forall es : list Event,
        forallb (fun e => negb (resets e)) es = true ->
        entities (run es s') = entities s')
  /\ (stream s' = Some m /\ In m (liveTracks s')).
Proof.
  intros H St Hs Hd Hc Hm Hl Hlen Hrs s'; subst s'.
  destruct (last_result 29 rs Hlen Hrs) as (rs' & r & -> & Hl' & Hrs' & Hr).
  rewrite frames_app, run_app.
  destruct (hand_frames_count rs' s H Hrs') as (H1 & E1 & C1).
  { rewrite Hc, Hl'. unfold detectionThreshold. lia. }
  apply besidesPump_fields in E1.
  destruct E1 as (_ & Ehd & Est & Elt & Ehr & _).
  cbn [frames map]. rewrite run_cons. cbn [run].
  set (s1 := run (frames rs') s) in *.
  destruct (second_confirmation r s1 H1) as (F & Est2 & Elt2); try assumption.
  { unfold staleListener in *. rewrite Ehr; exact St. }
  { rewrite C1, Hc, Hl'. unfold detectionThreshold. lia. }
  { congruence. }
  set (s2 := dispatch (AnimationFrame (Delivered r)) s1) in *.
  pose proof (finished_halted s2 F) as Hh.
  destruct F as (F1 & F2 & F3 & F4 & F5 & F6 & F7 & F8 & F9).
  split; [auto|]. split; [auto|]. split.
  { split; [exact F9|].
    rewrite dispatch_eq.
    destruct (commit_fields (fire 0 (handler RevealDue s2)))
      as (_ & _ & _ & T & V).
    rewrite T, V. cbn [handler].
    assert (E : fire 1000 s2 = set_showVideo true (set_timers [] s2)).
    { unfold fire. rewrite F9. reflexivity. }
    rewrite E, fire_none by (destruct s2; constructor).
    destruct s2; auto. }
  split.
  { intros es Hes. apply (halted_run es s2 Hh Hes). }
  split; [congruence|].
  rewrite Elt2, Elt. apply existsb_exists in Hl.
  destruct Hl as (x & Hx & Ex). apply Nat.eqb_eq in Ex. subst x; exact Hx.
Qed.

(** C4 at the sample session, from the confirmation of the left hand. *)
Lemma right_hand_confirmed_by_thirty_more_frames_witness :
  (step bothDone = complete
   /\ handsDetected bothDone = mkHandsDetected true true
   /\ detectionCount bothDone = 0)
  /\ (handsRef bothDone = None /\ pendingFrame bothDone = None
      /\ animationFrameRef bothDone = None /\ videoSrcObject bothDone = None)
  /\ (timers bothDone = [reveal]
      /\ showVideo (dispatch RevealDue bothDone) = true
      /\ timers (dispatch RevealDue bothDone) = [])
  /\ (forall es : list Event,
        forallb (fun e => negb (resets e)) es = true ->
        entities (run es bothDone) = entities bothDone)
  /\ (stream bothDone = Some 7%nat /\ In 7%nat (liveTracks bothDone)).
Proof.
  apply (right_hand_confirmed_by_thirty_more_frames
           leftDone (repeat (found 2) 30) 7%nat);
    vm_compute; reflexivity.
Defined.

(** C5.  With the threshold at 30, from a state awaiting a hand with tally
    0, twenty-nine frames with a hand followed by one frame without leave
    the tally at 0 and confirm nothing: the step and both flags are as
    before. *)
Theorem twenty_nine_frames_then_none (s : State) (rs : list Results) (r0 : Results) :
  tracking s = true -> detectionCount s = 0 ->
  List.length rs = 29%nat -> allWithHands rs = true ->
  handsFound r0 = false ->
  let s' := run (frames (rs ++ [r0])) s in
  detectionCount s' = 0 /\ step s' = step s
  /\ handsDetected s' = handsDetected s.
Proof.
  intros H Hc Hl Hrs Hr0 s'; subst s'.
  rewrite frames_app, run_app.
  destruct (hand_frames_count rs s H Hrs) as (H1 & E1 & C1).
  { rewrite Hc, Hl. unfold detectionThreshold. lia. }
  cbn [frames map]. rewrite run_cons. cbn [run].
  destruct (no_hand_frame_resets r0 _ H1 Hr0) as (_ & E2 & C2).
  apply besidesPump_fields in E1. destruct E1 as (Es1 & Ehd1 & _).
  apply besidesPump_fields in E2. destruct E2 as (Es2 & Ehd2 & _).
  rewrite C2, Es2, Ehd2, Es1, Ehd1. auto.
Qed.

(** C5 at the sample session, from its start. *)
Lemma twenty_nine_frames_then_none_witness :
  let s' := run (frames (repeat (found 1) 29 ++ [found 0])) started in
  detectionCount s' = 0 /\ step s' = step started
  /\ handsDetected s' = handsDetected started.
Proof.
  apply (twenty_nine_frames_then_none started (repeat (found 1) 29) (found 0));
    vm_compute; reflexivity.
Defined.

(** C6, as the code has it.  The listener reads the step from the cell
    [stepRef.current].  While the cell holds neither ['left-hand'] nor
    ['right-hand'], the listener returns the state as it got it, whatever
    the frame showed and whichever call delivered it, and so does the whole
    frame event: step, tally and both flags are unchanged.  Between two
    events the cell holds the step, so in every state a run reaches a frame
    event at a step that awaits no hand changes none of them.  But the cell
    is written by an effect, after the commit: once [handleScanSuccess] has
    set the step to ['complete'] and before that effect has run, the cell
    still holds ['right-hand'], and a result delivered then is counted, the
    tally going from 0 to 1. *)
Theorem observation_ignored_outside_hand_steps
    (sc : Scope) (r : Results) (o : SendOutcome) (s : State)
    (es : list Event) :
  awaitingHand (stepRef s) = false ->
  (onResults sc r s = s
   /\ entities (handler (AnimationFrame o) s) = entities s
   /\ (noneDue 0 (timers s) ->
       entities (dispatch (AnimationFrame o) s) = entities s))
  /\ (let t := run es initial in
      stepRef t = step t
      /\ (awaitingHand (step t) = false ->
          entities (dispatch (AnimationFrame o) t) = entities t))
  /\ (step uncommitted = complete /\ stepRef uncommitted = right_hand
      /\ detectionCount uncommitted = 0
      /\ detectionCount (onResults sc (found 1) uncommitted) = 1).
Proof.
  assert (G : forall x : State,
             awaitingHand (stepRef x) = false ->
             onResults sc r x = x
             /\ entities (handler (AnimationFrame o) x) = entities x
             /\ (noneDue 0 (timers x) ->
                 entities (dispatch (AnimationFrame o) x) = entities x)).
  { intros x A.
    split; [apply onResults_ignored; exact A|].
    destruct (frameResult_ignored _ _ (handler_frame_cases o x) A) as [E T].
    split; [exact E|].
    intros Q. rewrite dispatch_eq, fire_none by (rewrite T; exact Q).
    destruct (commit_fields (handler (AnimationFrame o) x)) as (Ec & _).
    congruence. }
  intros A. split; [apply G, A|]. split.
  - cbv zeta.
    pose proof (run_step_cell es initial eq_refl) as R.
    split; [exact R|]. intros A'. rewrite <- R in A'.
    destruct (G _ A') as (_ & _ & D). apply D.
    apply (run_quiet es initial initial_quiet).
  - vm_compute. auto.
Qed.

(** C6 at the sample session, once the scan is complete. *)
Lemma observation_ignored_outside_hand_steps_witness :
  (onResults (mkScope None true) (found 1) bothDone = bothDone
   /\ entities (handler (AnimationFrame (Delivered (found 1))) bothDone)
      = entities bothDone
   /\ (noneDue 0 (timers bothDone) ->
       entities (dispatch (AnimationFrame (Delivered (found 1))) bothDone)
       = entities bothDone))
  /\ (let t := run [LibraryLoaded; AnimationFrame (Delivered (found 1))]
                 initial in
      stepRef t = step t
      /\ (awaitingHand (step t) = false ->
          entities (dispatch (AnimationFrame (Delivered (found 1))) t)
          = entities t))
  /\ (step uncommitted = complete /\ stepRef uncommitted = right_hand
      /\ detectionCount uncommitted = 0
      /\ detectionCount (onResults (mkScope None true) (found 1) uncommitted)
         = 1).
Proof.
  apply (observation_ignored_outside_hand_steps
           (mkScope None true) (found 1) (Delivered (found 1)) bothDone
           [LibraryLoaded; AnimationFrame (Delivered (found 1))]);
    vm_compute; reflexivity.
Defined.

(** C7.  In every state a run from the initial state reaches, a frame
    event, with the confirmation it may trigger, never turns both flags
    from false to true, and turns [right] from false to true only when
    [left] was true before: the flags change by at most one confirmation,
    the left hand first. *)
Theorem one_confirmation_per_frame (es : list Event) (o : SendOutcome) :
  let s := run es initial in
  let s' := dispatch (AnimationFrame o) s in
  ~ (left (handsDetected s) = false /\ right (handsDetected s) = false
     /\ left (handsDetected s') = true /\ right (handsDetected s') = true)
  /\ (right (handsDetected s) = false -> right (handsDetected s') = true ->
      left (handsDetected s) = true)
  /\ oneConfirmation (handsDetected s) (handsDetected s').
Proof.
  cbv zeta.
  pose proof (run_quiet es initial initial_quiet) as Q.
  pose proof (frame_oneConfirmation o _ Q) as C.
  set (s := run es initial) in *.
  set (s' := dispatch (AnimationFrame o) s) in *.
  split; [|split; [|exact C]].
  - intros (L & R & L' & R').
    destruct C as [E|[(_ & E)|(L1 & _)]].
    + rewrite E in L'; congruence.
    + rewrite E in R'; cbn in R'; congruence.
    + congruence.
  - intros R R'.
    destruct C as [E|[(_ & E)|(L1 & _)]].
    + rewrite E in R'; congruence.
    + rewrite E in R'; cbn in R'; congruence.
    + exact L1.
Qed.

(** C8.  [resetScan], in any scope and from any state, leaves the step at
    ['idle'], the tally at 0 and both flags false, the values of the state
    at mount; in a state that a run reaches, the timeouts and the commit
    that follow keep them, and the step cell reads ['idle']. *)
Theorem reset_returns_to_initial (sc : Scope) (s : State) (es : list Event) :
  (let s' := resetScan sc s in
   step s' = idle /\ detectionCount s' = 0
   /\ handsDetected s' = mkHandsDetected false false
   /\ entities s' = entities initial)
  /\ (let r := run es initial in
      let r' := settle (resetScan (scope r) r) in
      entities r' = entities initial /\ stepRef r' = idle).
Proof.
  assert (F : forall sc0 s0,
             entities (resetScan sc0 s0) = entities initial
             /\ timers (resetScan sc0 s0) = timers s0).
  { intros sc0 s0. unfold resetScan, seq.
    destruct (stopCamera_fields sc0 s0) as (_ & T & _). rewrite <- T.
    destruct (stopCamera sc0 s0); auto. }
  split.
  - cbv zeta. destruct (F sc s) as [E _].
    pose proof (entities_inv _ _ E) as (E1 & E2 & E3). auto.
  - cbv zeta. set (r := run es initial).
    destruct (F (scope r) r) as [E T].
    destruct (run_quiet es initial initial_quiet) as [Q _]. fold r in Q.
    unfold settle, seq. rewrite fire_none by (rewrite T; exact Q).
    destruct (commit_fields (resetScan (scope r) r)) as (Ec & Sc & _).
    pose proof (entities_inv _ _ E) as (E1 & _).
    split; [congruence|]. rewrite Sc, E1; reflexivity.
Qed.

(** C9.  [requestCameraPermission] in a scope where the library is not
    loaded yet sets the message that asks to wait and does nothing else:
    the step stays ['idle'], the tally and the flags are unchanged, no
    stream is held or started, no video source is set and no timeout is
    registered. *)
Theorem begin_before_library_is_loaded
    (sc : Scope) (o : CameraOutcome) (s : State) :
  c_mediapipeLoaded sc = false -> step s = idle ->
  let s' := requestCameraPermission sc o s in
  s' = set_error msgLoading s
  /\ error s' = msgLoading /\ step s' = idle
  /\ entities s' = entities s
  /\ stream s' = stream s /\ liveTracks s' = liveTracks s
  /\ videoSrcObject s' = videoSrcObject s /\ handsRef s' = handsRef s
  /\ timers s' = timers s.
Proof.
  intros L St s'; subst s'.
  unfold requestCameraPermission, seq. rewrite L; cbn [negb].
  destruct s; cbn in St; subst. repeat split.
Qed.

(** C9 at the state at mount. *)
Lemma begin_before_library_is_loaded_witness :
  let s' := requestCameraPermission (scope initial) (Granted 7%nat) initial in
  s' = set_error msgLoading initial
  /\ error s' = msgLoading /\ step s' = idle
  /\ entities s' = entities initial
  /\ stream s' = stream initial /\ liveTracks s' = liveTracks initial
  /\ videoSrcObject s' = videoSrcObject initial
  /\ handsRef s' = handsRef initial
  /\ timers s' = timers initial.
Proof.
  apply (begin_before_library_is_loaded (scope initial) (Granted 7%nat) initial);
    vm_compute; reflexivity.
Defined.

(** C10.  When both flags are already true (in the state and in the cell
    the handler reads), [handleScanSuccess] only clears [scanning] and the
    tally: the step and the flags are as before, nothing is stopped (stream,
    tracks, detector, frame request and video source are untouched) and no
    timeout is registered. *)
Theorem threshold_event_after_both_confirmed (sc : Scope) (s : State) :
  handsDetectedRef s = handsDetected s ->
  handsDetected s = mkHandsDetected true true ->
  let s' := handleScanSuccess sc s in
  s' = set_detectionCount 0 (set_scanning false s)
  /\ step s' = step s /\ handsDetected s' = handsDetected s
  /\ scanning s' = false /\ detectionCount s' = 0
  /\ stream s' = stream s /\ liveTracks s' = liveTracks s
  /\ handsRef s' = handsRef s /\ pendingFrame s' = pendingFrame s
  /\ videoSrcObject s' = videoSrcObject s
  /\ timers s' = timers s /\ showVideo s' = showVideo s.
Proof.
  intros R Hd s'; subst s'.
  rewrite handleScanSuccess_done by (rewrite R, Hd; reflexivity).
  destruct s; repeat split.
Qed.

(** C10 at the sample session, once the scan is complete. *)
Lemma threshold_event_after_both_confirmed_witness :
  let s' := handleScanSuccess (mkScope None true) bothDone in
  s' = set_detectionCount 0 (set_scanning false bothDone)
  /\ step s' = step bothDone /\ handsDetected s' = handsDetected bothDone
  /\ scanning s' = false /\ detectionCount s' = 0
  /\ stream s' = stream bothDone /\ liveTracks s' = liveTracks bothDone
  /\ handsRef s' = handsRef bothDone /\ pendingFrame s' = pendingFrame bothDone
  /\ videoSrcObject s' = videoSrcObject bothDone
  /\ timers s' = timers bothDone /\ showVideo s' = showVideo bothDone.
Proof.
  apply (threshold_event_after_both_confirmed (mkScope None true) bothDone);
    vm_compute; reflexivity.
Defined.

(** * Coherence: what every event preserves *)

(** ** The shape of the handlers' results *)

Lemma inSync_inv (s : State) :
  inSync s = true ->
  stepRef s = step s /\ handsDetectedRef s = handsDetected s
  /\ scanningRef s = scanning s /\ committedStream s = stream s.
Proof.
  unfold inSync; intros H. rewrite !andb_true_iff in H.
  destruct H as [[[H1 H2] H3] H4].
  repeat split; auto using ScanStep_eqb_eq, HandsDetected_eqb_eq, Bool.eqb_prop.
  symmetry; apply sameStream_eq; exact H4.
Qed.

Lemma syncRefs_id (s : State) : inSync s = true -> syncRefs s = s.
Proof.
  intros H; destruct (inSync_inv s H) as (A & B & C & _).
  destruct s; cbn in *; subst; reflexivity.
Qed.

(** The commit, whatever the state: the cells are synced, the tracks of a
    stream that was replaced are stopped, and a frame request may be
    cancelled. *)
Lemma commit_shape (s : State) :
  exists p : option nat,
    commitEffects s =
    set_committedStream (stream s)
      (set_pendingFrame p (set_liveTracks (liveAfterCommit s) (syncRefs s))).
Proof.
  destruct s. unfold commitEffects, seq, streamEffect, liveAfterCommit.
  cbn [syncRefs seq stream committedStream liveTracks
       set_stepRef set_scanningRef set_handsDetectedRef step scanning
       handsDetected].
  destruct (sameStream stream0 committedStream0) eqn:E.
  - apply sameStream_eq in E; subst. exists pendingFrame0; reflexivity.
  - unfold streamCleanup, stopTracks, cancelAnimationFrame, seq, skip.
    destruct committedStream0 as [m0|], animationFrameRef0 as [id|];
      cbn [animationFrameRef liveTracks set_liveTracks pendingFrame];
      try (destruct (sameFrame pendingFrame0 id));
      first [exists None; reflexivity | exists pendingFrame0; reflexivity].
Qed.

(** [stopCamera], whatever the state. *)
Lemma stopCamera_shape (sc : Scope) (s : State) :
  exists p : option nat,
    stopCamera sc s =
    (fun y => if showVideo s then y else set_videoSrcObject None y)
      (set_handsRef None
         (set_animationFrameRef None (set_pendingFrame p (stopStream sc s)))).
Proof.
  unfold stopCamera, stopStream.
  destruct s. destruct (c_stream sc) as [m|];
    unfold seq, skip, stopTracks, setStream, cancelAnimationFrame, videoMounted;
    cbn [liveTracks set_liveTracks set_stream animationFrameRef pendingFrame
         handsRef showVideo];
    destruct animationFrameRef0 as [id|];
    try (destruct (sameFrame pendingFrame0 id));
    cbn [set_pendingFrame set_animationFrameRef handsRef showVideo];
    destruct handsRef0, showVideo0;
    first [exists None; reflexivity | exists pendingFrame0; reflexivity].
Qed.


(** ** Streams and tracks *)

Lemma tracks_none (l : list MediaStream) :
  forallb (fun x => sameStream None (Some x)) l = true -> l = [].
Proof. destruct l; [reflexivity|discriminate]. Qed.

Lemma tracks_remove (c : option MediaStream) (m : MediaStream)
    (l : list MediaStream) :
  forallb (fun x => sameStream c (Some x)) l = true ->
  forallb (fun x => sameStream c (Some x)) (remove Nat.eq_dec m l) = true.
Proof.
  rewrite !forallb_forall; intros H x Hx.
  apply in_remove in Hx; destruct Hx as [Hx _]; auto.
Qed.

(** Stopping the tracks of the stream held stops all that run. *)
Lemma tracks_stopped (m : MediaStream) (l : list MediaStream) :
  forallb (fun x => sameStream (Some m) (Some x)) l = true ->
  remove Nat.eq_dec m l = [].
Proof.
  induction l as [|x l IH]; [reflexivity|].
  cbn [forallb sameStream]; intros H; apply andb_prop in H.
  destruct H as [Hx Hl]. apply Nat.eqb_eq in Hx; subst x.
  cbn [remove]. destruct (Nat.eq_dec m m); [auto|contradiction].
Qed.

(** After the page lets go of its stream and the commit has run, no track
    runs. *)
Lemma tracks_after_release (s : State) :
  stream s = None ->
  forallb (fun x => sameStream (committedStream s) (Some x)) (liveTracks s) = true ->
  liveAfterCommit s = [].
Proof.
  intros Hs H; unfold liveAfterCommit; rewrite Hs.
  destruct (committedStream s) as [m0|]; cbn [sameStream].
  - apply tracks_stopped; exact H.
  - apply tracks_none; exact H.
Qed.

(** After the page takes a new stream and the commit has run, the tracks
    that run are those of the new stream, and they do run. *)
Lemma tracks_after_acquire (s : State) (m : MediaStream) (l : list MediaStream) :
  stream s = Some m -> liveTracks s = m :: l ->
  forallb (fun x => sameStream (committedStream s) (Some x)) l = true ->
  forallb (fun x => sameStream (Some m) (Some x)) (liveAfterCommit s) = true
  /\ existsb (Nat.eqb m) (liveAfterCommit s) = true.
Proof.
  intros Hs Hl H; unfold liveAfterCommit; rewrite Hs, Hl.
  destruct (committedStream s) as [m0|]; cbn [sameStream].
  - destruct (Nat.eqb_spec m m0) as [->|N].
    + cbn [forallb existsb sameStream]. rewrite Nat.eqb_refl; auto.
    + split.
      * apply forallb_forall; intros x Hx.
        apply in_remove in Hx; destruct Hx as [[->|Hx] Nx].
        { cbn; apply Nat.eqb_refl. }
        { rewrite forallb_forall in H. specialize (H x Hx); cbn in H.
          apply Nat.eqb_eq in H; congruence. }
      * apply existsb_exists; exists m; split; [|apply Nat.eqb_refl].
        apply in_in_remove; [congruence|left; reflexivity].
  - apply tracks_none in H; subst l.
    cbn [forallb existsb sameStream]. rewrite Nat.eqb_refl; auto.
Qed.

(** [initializeHandDetection], whatever the state: it touches the detector
    and the frame pump only. *)
Lemma initializeHandDetection_shape (sc : Scope) (s : State) :
  besidesDetector (initializeHandDetection sc s) = besidesDetector s.
Proof.
  destruct s.
  unfold initializeHandDetection, videoMounted, canvasMounted, videoReady,
    cancelAnimationFrame, seq.
  cbn [showVideo drawingUtilsRef].
  destruct showVideo0, (c_mediapipeLoaded sc), drawingUtilsRef0;
    cbn [negb orb]; try reflexivity.
  destruct animationFrameRef0 as [id|], videoSrcObject0;
    cbn [animationFrameRef pendingFrame];
    try (destruct (sameFrame pendingFrame0 id)); reflexivity.
Qed.


(** ** Closing an event *)

Lemma waiting_noneDue (ms : nat) (scs : list Scope) (s : State) :
  waiting scs s -> ms <> 500%nat -> ms <> 1000%nat -> noneDue ms (timers s).
Proof.
  unfold waiting, noneDue. intros -> H5 H10.
  apply Forall_app; split.
  - apply Forall_forall. intros t Ht. apply in_map_iff in Ht.
    destruct Ht as (sc & <- & _). cbn. congruence.
  - destruct (revealWaits s); repeat constructor. cbn. congruence.
Qed.

(** Between two events no zero-delay timeout waits. *)
Lemma coherent_quiet (s : State) : coherent s -> noneDue 0 (timers s).
Proof.
  intros (_ & _ & _ & _ & _ & _ & _ & [scs W]).
  apply (waiting_noneDue 0 scs s W); discriminate.
Qed.

(** Between events a coherent page is at rest. *)
Lemma settle_coherent (s : State) : coherent s -> settle s = s.
Proof.
  intros H. unfold settle, seq.
  rewrite fire_none by (apply coherent_quiet, H).
  destruct H as (Sy & _).
  rewrite commit_in_sync, syncRefs_id; auto.
  destruct (inSync_inv s Sy) as (_ & _ & _ & E); rewrite E.
  apply sameStream_refl.
Qed.

Lemma dispatch_unhandled (e : Event) (s : State) :
  coherent s -> handler e s = s -> dispatch e s = s.
Proof.
  intros H E. unfold dispatch, seq. rewrite E. apply settle_coherent, H.
Qed.

Lemma commit_entities (x : State) :
  step (commitEffects x) = step x
  /\ detectionCount (commitEffects x) = detectionCount x.
Proof.
  destruct (commit_fields x) as (E & _).
  apply entities_inv in E; tauto.
Qed.

(** The commit makes a page coherent again, when the handler has left the
    state as the steps and the timeouts need it. *)
Lemma coherent_commit (x : State) :
  bounded x -> (mediapipeLoaded x = true -> drawingUtilsRef x = true) ->
  flagsOf (step x) = Some (handsDetected x) ->
  (awaitingHand (step x) = false -> detectionCount x = 0) ->
  (showVideo x = true -> step x = complete) ->
  (exists scs : list Scope, waiting scs x) ->
  forallb (fun y => sameStream (stream x) (Some y)) (liveAfterCommit x) = true ->
  coherent (commitEffects x).
Proof.
  intros B L F Z V W N.
  destruct (commit_shape x) as [p E]. rewrite E. clear E.
  set (la := liveAfterCommit x) in *. clearbody la.
  destruct x. unfold coherent, inSync, noLeak, waiting, revealWaits, bounded in *.
  cbn in *. same. auto 10.
Qed.

(** Where the handler has left the stream alone, the commit leaves the
    tracks alone. *)
Lemma live_kept (x : State) :
  sameStream (stream x) (committedStream x) = true ->
  liveAfterCommit x = liveTracks x.
Proof. intros E; unfold liveAfterCommit; rewrite E; reflexivity. Qed.

(** Takes a coherent page apart: the fields, with what the cells hold
    substituted. *)
Ltac open_coherent s H :=
  let Sy := fresh "Sy" in
  let B := fresh "B" in
  let L := fresh "L" in
  let N := fresh "N" in
  let F := fresh "F" in
  let Z := fresh "Z" in
  let V := fresh "V" in
  let scs := fresh "scs" in
  let W := fresh "W" in
  destruct H as (Sy & B & L & N & F & Z & V & [scs W]);
  apply inSync_inv in Sy;
  destruct Sy as (?R1 & ?R2 & ?R3 & ?R4);
  unfold noLeak, waiting, revealWaits, bounded in *;
  destruct s; cbn in * |-; subst.

(** ** Events that keep the page coherent *)


(** An event whose handler leaves a coherent state needs no commit. *)
Lemma dispatch_settled (e : Event) (s : State) :
  coherent (handler e s) -> dispatch e s = handler e s.
Proof. intros H. unfold dispatch, seq. apply settle_coherent, H. Qed.

(** A change of the tally within its bounds, to 0 outside the hand steps. *)
Lemma coherent_tally (n : Z) (s : State) :
  coherent s -> 0 <= n < detectionThreshold ->
  (awaitingHand (step s) = false -> n = 0) ->
  coherent (set_detectionCount n s).
Proof.
  intros H Bn Zn. open_coherent s H.
  unfold coherent, inSync, noLeak, waiting, revealWaits, bounded.
  cbn in *. same. eauto 10.
Qed.

Lemma coherent_console (l : list string) (s : State) :
  coherent s -> coherent (set_console l s).
Proof.
  intros H. open_coherent s H.
  unfold coherent, inSync, noLeak, waiting, revealWaits, bounded.
  cbn in *. same. eauto 10.
Qed.

Lemma coherent_error (msg : string) (s : State) :
  coherent s -> coherent (set_error msg s).
Proof.
  intros H. open_coherent s H.
  unfold coherent, inSync, noLeak, waiting, revealWaits, bounded.
  cbn in *. same. eauto 10.
Qed.

(** The library finishes loading, or fails to. *)
Lemma coherent_library_handler (e : Event) (s : State) :
  e = LibraryLoaded \/ e = LibraryFailed ->
  coherent s ->
  coherent (handler e s) /\ step (handler e s) = step s.
Proof.
  intros He H.
  destruct He; subst e; cbn [handler]; (split; [|destruct s; reflexivity]).
  - open_coherent s H.
    unfold coherent, inSync, noLeak, waiting, revealWaits, bounded.
    cbn in *. same. eauto 10.
  - unfold seq, consoleError, setError.
    apply coherent_error, coherent_console, H.
Qed.

Lemma coherent_library (e : Event) (s : State) :
  e = LibraryLoaded \/ e = LibraryFailed ->
  coherent s ->
  coherent (dispatch e s) /\ step (dispatch e s) = step s.
Proof.
  intros He H.
  destruct (coherent_library_handler e s He H) as [C St].
  rewrite dispatch_settled by exact C. auto.
Qed.

(** *** The 500 ms timeouts *)

Lemma oldest_waiting (sc : Scope) (scs : list Scope) (l : list Timeout) :
  oldest 500 (map initTimeout (sc :: scs) ++ l) =
  Some (initTimeout sc, map initTimeout scs ++ l).
Proof. reflexivity. Qed.

Lemma oldest_reveal (b : bool) :
  oldest 500 (if b then [reveal] else []) = None.
Proof. destruct b; reflexivity. Qed.

(** Changing the detector and the frame pump keeps the page coherent. *)
Lemma coherent_detector (s x : State) :
  coherent s -> besidesDetector x = besidesDetector s -> coherent x.
Proof.
  intros H E. destruct s, x. unfold besidesDetector in E; cbn in E.
  injection E; intros; subst.
  unfold coherent, inSync, noLeak, waiting, revealWaits, bounded in *.
  cbn in *. exact H.
Qed.

Lemma coherent_timers (scs : list Scope) (s : State) :
  coherent s ->
  coherent (set_timers (map initTimeout scs
                        ++ (if revealWaits s then [reveal] else [])) s).
Proof.
  intros H. open_coherent s H.
  unfold coherent, inSync, noLeak, waiting, revealWaits, bounded.
  cbn in *. same. repeat (split; [auto|]). exists scs. reflexivity.
Qed.

(** The oldest 500 ms timeout elapses: [initializeHandDetection] runs in
    the scope of the click that registered it. *)
Lemma dispatch_initialize (sc : Scope) (scs : list Scope) (s : State) :
  coherent s -> waiting (sc :: scs) s ->
  let x := set_timers (map initTimeout scs
                       ++ (if revealWaits s then [reveal] else [])) s in
  dispatch InitializeDue s = initializeHandDetection sc x
  /\ coherent (dispatch InitializeDue s)
  /\ waiting scs (dispatch InitializeDue s).
Proof.
  intros H W x.
  assert (E : handler InitializeDue s = initializeHandDetection sc x).
  { cbn [handler]. unfold fireOldest. rewrite W, oldest_waiting. reflexivity. }
  assert (C : coherent (initializeHandDetection sc x)).
  { apply (coherent_detector x); [apply coherent_timers, H|].
    apply initializeHandDetection_shape. }
  rewrite dispatch_settled by (rewrite E; exact C). rewrite E.
  split; [reflexivity|]. split; [exact C|].
  pose proof (initializeHandDetection_shape sc x) as B.
  unfold waiting, revealWaits.
  assert (F : timers (initializeHandDetection sc x) = timers x
              /\ step (initializeHandDetection sc x) = step x
              /\ showVideo (initializeHandDetection sc x) = showVideo x).
  { destruct (initializeHandDetection sc x), x.
    unfold besidesDetector in B; cbn in B. injection B; intros; subst.
    auto. }
  destruct F as (-> & -> & ->). subst x. destruct s; reflexivity.
Qed.

(** No 500 ms timeout waits: nothing happens. *)
Lemma dispatch_initialize_none (s : State) :
  coherent s -> waiting [] s -> dispatch InitializeDue s = s.
Proof.
  intros H W. apply dispatch_unhandled; [exact H|].
  cbn [handler]. unfold fireOldest. rewrite W. cbn [map app].
  rewrite oldest_reveal. reflexivity.
Qed.

Lemma coherent_initialize (s : State) :
  coherent s ->
  coherent (dispatch InitializeDue s)
  /\ step (dispatch InitializeDue s) = step s.
Proof.
  intros H. pose proof H as H0.
  destruct H0 as (_ & _ & _ & _ & _ & _ & _ & [[|sc scs] W]).
  - rewrite dispatch_initialize_none; auto.
  - destruct (dispatch_initialize sc scs s H W) as (E & C & _).
    split; [exact C|]. rewrite E.
    match goal with
    | |- step (initializeHandDetection sc ?x) = _ =>
        pose proof (initializeHandDetection_shape sc x) as B;
        destruct (initializeHandDetection sc x)
    end.
    destruct s. unfold besidesDetector in B; cbn in B.
    injection B; intros; subst. reflexivity.
Qed.

(** *** The reveal *)

Lemma coherent_reveal (s : State) :
  coherent s ->
  coherent (dispatch RevealDue s)
  /\ step (dispatch RevealDue s) = step s
  /\ (revealWaits s = true ->
      showVideo (dispatch RevealDue s) = true
      /\ forall scs : list Scope,
           waiting scs s -> timers (dispatch RevealDue s) = map initTimeout scs).
Proof.
  intros H. pose proof H as H0.
  destruct H0 as (_ & _ & _ & _ & _ & _ & _ & [scs W]).
  destruct (revealWaits s) eqn:R.
  - assert (E : handler RevealDue s =
                set_showVideo true (set_timers (map initTimeout scs) s)).
    { cbn [handler].
      rewrite (fire_last 1000 SetShowVideoTrue (map initTimeout scs)).
      - reflexivity.
      - rewrite W, R. reflexivity.
      - apply Forall_forall. intros t Ht. apply in_map_iff in Ht.
        destruct Ht as (sc & <- & _). cbn. discriminate. }
    assert (C : coherent (handler RevealDue s)).
    { rewrite E. unfold revealWaits in R. apply andb_prop in R.
      destruct R as [St V']. apply ScanStep_eqb_eq in St.
      open_coherent s H.
      unfold coherent, inSync, noLeak, waiting, revealWaits, bounded.
      cbn in *. same. repeat (split; [auto|]). exists scs.
      rewrite app_nil_r. reflexivity. }
    rewrite dispatch_settled by exact C. rewrite E.
    split; [rewrite <- E; exact C|].
    split; [destruct s; reflexivity|]. intros _.
    split; [destruct s; reflexivity|].
    intros scs' W'. unfold waiting in W, W'. rewrite W', R in W.
    apply app_inv_tail in W. rewrite W. destruct s; reflexivity.
  - rewrite dispatch_unhandled; auto.
    + split; [exact H|]. split; [reflexivity|discriminate].
    + cbn [handler]. apply fire_none. rewrite W, R, app_nil_r.
      apply Forall_forall. intros t Ht. apply in_map_iff in Ht.
      destruct Ht as (sc & <- & _). cbn. discriminate.
Qed.

(** *** Frames *)

(** The threshold is reached while a hand is awaited: the confirmation and
    the commit that follows it. *)
Lemma coherent_confirmation (sc : Scope) (y : State) :
  coherent y -> awaitingHand (step y) = true ->
  let y' := commitEffects (handleScanSuccess sc y) in
  coherent y' /\ detectionCount y' = 0.
Proof.
  intros H A y'; subst y'.
  match goal with
  | |- _ /\ detectionCount (commitEffects ?x) = 0 =>
      destruct (commit_entities x) as [_ Ec]; rewrite Ec; clear Ec
  end.
  open_coherent y H.
  assert (Vf : showVideo0 = false).
  { destruct showVideo0; [|reflexivity].
    specialize (V eq_refl); subst; discriminate A. }
  subst showVideo0.
  destruct step0; try discriminate A; cbn in F; injection F as F; subst.
  - rewrite handleScanSuccess_first by reflexivity.
    split; [|reflexivity].
    apply coherent_commit; cbn; auto; try discriminate.
    + unfold bounded, detectionThreshold; cbn; lia.
    + exists scs. reflexivity.
    + rewrite live_kept by (cbn; apply sameStream_refl). exact N.
  - rewrite handleScanSuccess_second by reflexivity.
    unfold seq, setTimeout.
    match goal with
    | |- context [stopCamera sc ?x] =>
        destruct (stopCamera_shape sc x) as [p E]; rewrite E; clear E
    end.
    unfold stopStream, seq, skip, stopTracks, setStream.
    destruct (c_stream sc) as [m'|]; cbn; (split; [|reflexivity]).
    + apply coherent_commit; cbn; auto; try discriminate.
      * unfold bounded, detectionThreshold; cbn; lia.
      * exists scs. unfold waiting, revealWaits; cbn.
        rewrite app_nil_r. reflexivity.
      * match goal with
        | |- forallb _ (liveAfterCommit ?x) = true =>
            rewrite (tracks_after_release x); [reflexivity|reflexivity|]
        end.
        cbn. apply tracks_remove. exact N.
    + apply coherent_commit; cbn; auto; try discriminate.
      * unfold bounded, detectionThreshold; cbn; lia.
      * exists scs. unfold waiting, revealWaits; cbn.
        rewrite app_nil_r. reflexivity.
      * rewrite live_kept by (cbn; apply sameStream_refl). exact N.
Qed.

(** A frame event keeps the page coherent; where it changes the step, it
    leaves the tally at 0. *)
Lemma coherent_frame (o : SendOutcome) (s : State) :
  coherent s ->
  let s' := dispatch (AnimationFrame o) s in
  coherent s' /\ (step s' = step s \/ detectionCount s' = 0).
Proof.
  intros H s'; subst s'. rewrite dispatch_eq.
  pose proof (coherent_quiet s H) as Q.
  assert (R : stepRef s = step s).
  { destruct H as (Sy & _). apply inSync_inv in Sy. tauto. }
  pose proof (handler_frame_cases o s) as FR.
  remember (handler (AnimationFrame o) s) as x eqn:Ex. clear Ex.
  assert (U : forall x0 : State,
             coherent x0 -> step x0 = step s ->
             coherent (commitEffects (fire 0 x0))
             /\ (step (commitEffects (fire 0 x0)) = step s
                 \/ detectionCount (commitEffects (fire 0 x0)) = 0)).
  { intros x0 C St.
    change (commitEffects (fire 0 x0)) with (settle x0).
    rewrite settle_coherent by exact C. auto. }
  destruct FR as [Hp| | |A|A Hc|sc A Hc].
  - apply U; [exact H|reflexivity].
  - apply U; [|destruct s; reflexivity].
    apply (coherent_detector s); [exact H|destruct s; reflexivity].
  - apply U; [|destruct s; reflexivity].
    apply (coherent_detector (set_console (console s ++ [msgSend]) s));
      [apply coherent_console, H|destruct s; reflexivity].
  - apply U; [|destruct s; reflexivity].
    apply (coherent_detector (set_detectionCount 0 s));
      [|destruct s; reflexivity].
    apply coherent_tally; [exact H|unfold detectionThreshold; lia|auto].
  - apply U; [|destruct s; reflexivity].
    apply (coherent_detector (set_detectionCount (detectionCount s + 1) s));
      [|destruct s; reflexivity].
    apply coherent_tally; [exact H| |].
    + destruct H as (_ & B & _). unfold bounded in B. lia.
    + rewrite <- R, A. discriminate.
  - set (y := requestAnimationFrame (set_detectionCount 0 (set_pendingFrame None s))).
    assert (E : fire 0
                  (requestAnimationFrame
                     (set_detectionCount 0
                        (setTimeout (HandleScanSuccess sc) 0
                           (set_pendingFrame None s))))
                = handleScanSuccess sc y).
    { rewrite (fire_last 0 (HandleScanSuccess sc) (timers s)).
      - subst y. destruct s; reflexivity.
      - destruct s; reflexivity.
      - exact Q. }
    rewrite E.
    assert (C : coherent y).
    { apply (coherent_detector (set_detectionCount 0 s));
        [|subst y; destruct s; reflexivity].
      apply coherent_tally; [exact H|unfold detectionThreshold; lia|auto]. }
    destruct (coherent_confirmation sc y C) as [C' Z'].
    { rewrite R in A. subst y. destruct s; exact A. }
    auto.
Qed.

(** *** The click on [Scan Hand] *)

Lemma handler_click (o : CameraOutcome) (s : State) :
  step s = idle ->
  handler (ClickScanHand o) s = requestCameraPermission (scope s) o s.
Proof. intros St; unfold handler; rewrite St; reflexivity. Qed.

Lemma request_not_loaded (o : CameraOutcome) (s : State) :
  mediapipeLoaded s = false ->
  requestCameraPermission (scope s) o s = set_error msgLoading s.
Proof. intros L; destruct s; cbn in L; subst; reflexivity. Qed.

Lemma request_denied (s : State) :
  mediapipeLoaded s = true ->
  requestCameraPermission (scope s) Denied s =
  set_console (console s ++ ["Error accessing camera:"])
    (set_error msgDenied s).
Proof. intros L; destruct s; cbn in L; subst; reflexivity. Qed.

Lemma request_play_rejected (m : MediaStream) (s : State) :
  mediapipeLoaded s = true -> showVideo s = false ->
  requestCameraPermission (scope s) (PlayRejected m) s =
  set_console (console s ++ ["Error accessing camera:"])
    (set_error msgDenied
       (set_videoSrcObject (Some m)
          (set_stream (Some m) (set_liveTracks (m :: liveTracks s) s)))).
Proof. intros L V; destruct s; cbn in L, V; subst; reflexivity. Qed.

Lemma request_granted (m : MediaStream) (s : State) :
  mediapipeLoaded s = true -> showVideo s = false ->
  requestCameraPermission (scope s) (Granted m) s =
  set_scanning true
    (set_step left_hand
       (set_timers (timers s ++ [initTimeout (scope s)])
          (set_videoSrcObject (Some m)
             (set_stream (Some m)
                (set_liveTracks (m :: liveTracks s) (set_error "" s)))))).
Proof. intros L V; destruct s; cbn in L, V; subst; reflexivity. Qed.

(** What coherence says of an idle page. *)
Lemma coherent_idle (s : State) :
  coherent s -> step s = idle ->
  handsDetected s = mkHandsDetected false false
  /\ detectionCount s = 0 /\ showVideo s = false /\ revealWaits s = false.
Proof.
  intros (_ & _ & _ & _ & F & Z & V & _) St. unfold revealWaits.
  rewrite St in *. cbn in F. injection F as F.
  repeat split; auto.
  destruct (showVideo s); [|reflexivity]. discriminate (V eq_refl).
Qed.

(** A click on [Scan Hand] that gets no stream, because the library is not
    loaded yet or because the camera is refused, writes a message and
    changes nothing else. *)
Lemma click_without_stream (o : CameraOutcome) (s : State) :
  coherent s -> step s = idle ->
  mediapipeLoaded s = false \/ o = Denied ->
  let s' := dispatch (ClickScanHand o) s in
  coherent s'
  /\ s' = (if mediapipeLoaded s
           then set_console (console s ++ ["Error accessing camera:"])
                  (set_error msgDenied s)
           else set_error msgLoading s).
Proof.
  intros H St G s'; subst s'.
  assert (E : handler (ClickScanHand o) s =
              if mediapipeLoaded s
              then set_console (console s ++ ["Error accessing camera:"])
                     (set_error msgDenied s)
              else set_error msgLoading s).
  { rewrite handler_click by exact St.
    destruct (mediapipeLoaded s) eqn:L.
    - destruct G as [G| ->]; [discriminate G|]. apply request_denied, L.
    - apply request_not_loaded, L. }
  assert (C : coherent (handler (ClickScanHand o) s)).
  { rewrite E. destruct (mediapipeLoaded s).
    - apply coherent_console, coherent_error, H.
    - apply coherent_error, H. }
  rewrite dispatch_settled by exact C. rewrite <- E. auto.
Qed.

(** The commit after the page has taken the stream [m]. *)
Lemma commit_acquired (m : MediaStream) (l : list MediaStream) (x : State) :
  stream x = Some m -> liveTracks x = m :: l ->
  forallb (fun y => sameStream (committedStream x) (Some y)) l = true ->
  bounded x -> (mediapipeLoaded x = true -> drawingUtilsRef x = true) ->
  flagsOf (step x) = Some (handsDetected x) ->
  (awaitingHand (step x) = false -> detectionCount x = 0) ->
  (showVideo x = true -> step x = complete) ->
  (exists scs : list Scope, waiting scs x) ->
  coherent (commitEffects x)
  /\ (forall y : MediaStream, In y (liveTracks (commitEffects x)) <-> y = m).
Proof.
  intros Sm Lt N B L F Z V W.
  destruct (tracks_after_acquire x m l Sm Lt N) as [T1 T2].
  split.
  - apply coherent_commit; auto. rewrite Sm. exact T1.
  - destruct (commit_shape x) as [p E]. rewrite E.
    assert (El : liveTracks
                   (set_committedStream (stream x)
                      (set_pendingFrame p
                         (set_liveTracks (liveAfterCommit x) (syncRefs x))))
                 = liveAfterCommit x)
      by (destruct (syncRefs x); reflexivity).
    rewrite El. intros y. split.
    + intros Hy. rewrite forallb_forall in T1. specialize (T1 y Hy).
      cbn in T1. apply Nat.eqb_eq in T1. congruence.
    + intros ->. apply existsb_exists in T2. destruct T2 as (z & Hz & E').
      apply Nat.eqb_eq in E'. subst z. exact Hz.
Qed.

(** A click on [Scan Hand] whose video does not start playing: the stream
    is kept and its tracks run, while the page stays idle with the message
    of a denied camera. *)
Lemma click_play_rejected (m : MediaStream) (s : State) :
  coherent s -> step s = idle -> mediapipeLoaded s = true ->
  let s' := dispatch (ClickScanHand (PlayRejected m)) s in
  coherent s'
  /\ (forall y : MediaStream, In y (liveTracks s') <-> y = m)
  /\ step s' = idle /\ detectionCount s' = 0
  /\ handsDetected s' = mkHandsDetected false false
  /\ error s' = msgDenied
  /\ console s' = console s ++ ["Error accessing camera:"]
  /\ stream s' = Some m
  /\ handsRef s' = handsRef s /\ timers s' = timers s
  /\ mediapipeLoaded s' = true.
Proof.
  intros H St Lo s'; subst s'.
  destruct (coherent_idle s H St) as (Hd & Z0 & V0 & _).
  pose proof (coherent_quiet s H) as Q.
  rewrite dispatch_eq, handler_click, request_play_rejected by assumption.
  rewrite fire_none by (destruct s; exact Q).
  clear Q. open_coherent s H.
  match goal with
  | |- coherent (commitEffects ?x) /\ _ =>
      destruct (commit_acquired m liveTracks0 x) as (C & T);
        [reflexivity|reflexivity|exact N| | | | | | |];
        [..|destruct (commit_shape x) as [p E]]
  end.
  all: try solve [cbn; auto; try discriminate; eauto].
  - exists scs. reflexivity.
  - split; [exact C|]. split; [exact T|].
    rewrite E. cbn. repeat split.
Qed.

(** A click on [Scan Hand] that gets the camera: the page takes the stream
    and awaits the left hand, and the timeout of
    [initializeHandDetection] waits. *)
Lemma click_granted (m : MediaStream) (s : State) :
  coherent s -> step s = idle -> mediapipeLoaded s = true ->
  let s' := dispatch (ClickScanHand (Granted m)) s in
  coherent s'
  /\ (forall y : MediaStream, In y (liveTracks s') <-> y = m)
  /\ step s' = left_hand /\ detectionCount s' = 0
  /\ handsDetected s' = mkHandsDetected false false
  /\ error s' = "" /\ scanning s' = true
  /\ stream s' = Some m
  /\ showVideo s' = false /\ videoSrcObject s' = Some m
  /\ mediapipeLoaded s' = true /\ drawingUtilsRef s' = true
  /\ handsRef s' = handsRef s
  /\ timers s' = timers s ++ [initTimeout (scope s)].
Proof.
  intros H St Lo s'; subst s'.
  destruct (coherent_idle s H St) as (Hd & Z0 & V0 & _).
  pose proof (coherent_quiet s H) as Q.
  rewrite dispatch_eq, handler_click, request_granted by assumption.
  rewrite fire_none
    by (destruct s; cbn in *; apply Forall_app; split;
        [exact Q|repeat constructor; cbn; discriminate]).
  clear Q. open_coherent s H.
  specialize (L eq_refl); subst.
  match goal with
  | |- coherent (commitEffects ?x) /\ _ =>
      destruct (commit_acquired m liveTracks0 x) as (C & T);
        [reflexivity|reflexivity|exact N| | | | | | |];
        [..|destruct (commit_shape x) as [p E]]
  end.
  all: try solve [cbn; auto; try discriminate; eauto].
  - exists (scs ++ [mkScope stream0 true]). unfold waiting, revealWaits. cbn.
    rewrite map_app, !app_nil_r. reflexivity.
  - split; [exact C|]. split; [exact T|].
    rewrite E. cbn. repeat split.
Qed.

(** *** The resets and the button that leaves during a scan *)

(** [resetScan] in the scope of the last render, in full. *)
Lemma resetScan_shape (s : State) :
  exists p : option nat,
    resetScan (scope s) s =
    set_detectionCount 0
      (set_scanning false
         (set_showVideo false
            (set_handsDetected (mkHandsDetected false false)
               (set_step idle
                  ((fun y => if showVideo s then y
                             else set_videoSrcObject None y)
                     (set_handsRef None
                        (set_animationFrameRef None
                           (set_pendingFrame p (stopStream (scope s) s))))))))).
Proof.
  unfold resetScan, seq.
  destruct (stopCamera_shape (scope s) s) as [p E]. exists p.
  rewrite E. destruct s, showVideo0; reflexivity.
Qed.

(** A reset that the page offers leaves it coherent and idle, with the
    tally at 0, no stream held, no track running and no detector; the
    timeouts that wait go on waiting. *)
Lemma coherent_reset (s : State) :
  coherent s -> revealWaits s = false ->
  let s' := commitEffects (fire 0 (resetScan (scope s) s)) in
  coherent s' /\ step s' = idle /\ detectionCount s' = 0
  /\ handsDetected s' = mkHandsDetected false false
  /\ showVideo s' = false
  /\ stream s' = None /\ liveTracks s' = []
  /\ handsRef s' = None /\ timers s' = timers s
  /\ mediapipeLoaded s' = mediapipeLoaded s
  /\ drawingUtilsRef s' = drawingUtilsRef s.
Proof.
  intros H R s'; subst s'.
  pose proof (coherent_quiet s H) as Q.
  destruct (resetScan_shape s) as [p E]. rewrite E; clear E.
  open_coherent s H. cbn in R, Q. rewrite R in *.
  unfold stopStream, scope, seq, skip, stopTracks, setStream.
  cbn [c_stream showVideo liveTracks].
  destruct showVideo0, stream0 as [m|]; cbv beta iota.
  all: rewrite fire_none by exact Q.
  all: match goal with
       | |- coherent (commitEffects ?x) /\ _ =>
           destruct (commit_shape x) as [q E];
           assert (La : liveAfterCommit x = [])
       end.
  all: try (apply tracks_after_release; [reflexivity|]; cbn;
            first [exact (tracks_remove (Some m) m liveTracks0 N) | exact N]).
  all: split; [|rewrite E, La; cbn; repeat split].
  all: apply coherent_commit; try rewrite La; cbn; auto; try discriminate.
  all: try (unfold bounded, detectionThreshold; cbn; lia).
  all: exists scs; unfold waiting, revealWaits; cbn; reflexivity.
Qed.

(** [stopCamera] from the button shown during a scan. *)
Lemma coherent_leave (s : State) :
  coherent s ->
  let s' := commitEffects (fire 0 (stopCamera (scope s) s)) in
  coherent s' /\ step s' = step s /\ detectionCount s' = detectionCount s
  /\ handsDetected s' = handsDetected s
  /\ stream s' = None /\ liveTracks s' = []
  /\ handsRef s' = None /\ timers s' = timers s.
Proof.
  intros H s'; subst s'.
  pose proof (coherent_quiet s H) as Q.
  destruct (stopCamera_shape (scope s) s) as [p E]. rewrite E; clear E.
  open_coherent s H. cbn in Q.
  unfold stopStream, scope, seq, skip, stopTracks, setStream.
  cbn [c_stream showVideo liveTracks].
  destruct showVideo0, stream0 as [m|]; cbv beta iota.
  all: rewrite fire_none by exact Q.
  all: match goal with
       | |- coherent (commitEffects ?x) /\ _ =>
           destruct (commit_shape x) as [q E];
           assert (La : liveAfterCommit x = [])
       end.
  all: try (apply tracks_after_release; [reflexivity|]; cbn;
            first [exact (tracks_remove (Some m) m liveTracks0 N) | exact N]).
  all: split; [|rewrite E, La; cbn; repeat split].
  all: apply coherent_commit; try rewrite La; cbn; auto; try discriminate.
  all: exists scs; unfold waiting, revealWaits; cbn; reflexivity.
Qed.

(** A click on a button that resets: the button is not shown and nothing
    happens, or the page is reset. *)
Lemma coherent_click_reset (e : Event) (s : State) :
  coherent s ->
  (e = ClickReset /\ awaitingHand (step s) = true)
  \/ (e = ClickBackToHome /\ step s = complete /\ showVideo s = true) ->
  let s' := dispatch e s in
  coherent s' /\ step s' = idle /\ detectionCount s' = 0
  /\ handsDetected s' = mkHandsDetected false false
  /\ showVideo s' = false
  /\ stream s' = None /\ liveTracks s' = []
  /\ handsRef s' = None /\ timers s' = timers s
  /\ mediapipeLoaded s' = mediapipeLoaded s
  /\ drawingUtilsRef s' = drawingUtilsRef s.
Proof.
  intros H G s'; subst s'.
  assert (G' : handler e s = resetScan (scope s) s /\ revealWaits s = false).
  { unfold revealWaits.
    destruct G as [[-> A]|(-> & St & V)]; unfold handler.
    - rewrite A. split; [reflexivity|].
      destruct (step s); try discriminate A; reflexivity.
    - rewrite St, V. split; reflexivity. }
  destruct G' as [G' R].
  rewrite dispatch_eq, G'. apply coherent_reset; assumption.
Qed.

(** ** Every event keeps the page coherent *)

Lemma coherent_dispatch (e : Event) (s : State) :
  coherent s ->
  coherent (dispatch e s)
  /\ (step (dispatch e s) = step s \/ detectionCount (dispatch e s) = 0).
Proof.
  intros H. destruct e.
  - destruct (coherent_library LibraryLoaded s) as [H' St]; auto.
  - destruct (coherent_library LibraryFailed s) as [H' St]; auto.
  - destruct (ScanStep_eqb (step s) idle) eqn:St.
    + apply ScanStep_eqb_eq in St.
      destruct (mediapipeLoaded s) eqn:L.
      * destruct o as [m|m|].
        { destruct (click_granted m s H St L) as (H' & _ & _ & C & _); auto. }
        { destruct (click_play_rejected m s H St L) as (H' & _ & _ & C & _);
            auto. }
        { destruct (click_without_stream Denied s H St) as (H' & E); auto.
          split; [exact H'|]. left. rewrite E, L. destruct s; reflexivity. }
      * destruct (click_without_stream o s H St) as (H' & E); auto.
        split; [exact H'|]. left. rewrite E, L. destruct s; reflexivity.
    + rewrite dispatch_unhandled; auto.
      unfold handler; rewrite St; reflexivity.
  - destruct (coherent_initialize s H); auto.
  - apply coherent_frame; exact H.
  - destruct (coherent_reveal s H) as (H' & St & _); auto.
  - destruct (awaitingHand (step s)) eqn:A.
    + destruct (coherent_click_reset ClickReset s H) as (H' & _ & C & _); auto.
    + rewrite dispatch_unhandled; auto.
      unfold handler; rewrite A; reflexivity.
  - destruct (ScanStep_eqb (step s) complete && showVideo s) eqn:A.
    + apply andb_prop in A. destruct A as [A V]. apply ScanStep_eqb_eq in A.
      destruct (coherent_click_reset ClickBackToHome s H) as (H' & _ & C & _);
        auto.
    + rewrite dispatch_unhandled; auto.
      unfold handler; rewrite A; reflexivity.
  - destruct (negb (ScanStep_eqb (step s) idle)
              && negb (ScanStep_eqb (step s) complete)) eqn:A.
    + rewrite dispatch_eq. unfold handler. rewrite A.
      destruct (coherent_leave s H) as (H' & St & _). auto.
    + rewrite dispatch_unhandled; auto.
      unfold handler; rewrite A; reflexivity.
Qed.

Lemma coherent_initial : coherent initial.
Proof.
  unfold coherent, bounded, detectionThreshold; cbn.
  repeat split; auto; try lia; try discriminate.
  exists []. reflexivity.
Qed.

Lemma coherent_run (es : list Event) (s : State) :
  coherent s -> coherent (run es s).
Proof.
  revert s; induction es as [|e es IH]; intros s H; [exact H|].
  rewrite run_cons. apply IH, coherent_dispatch, H.
Qed.

(** Every state a run reaches from the mount is coherent. *)
Lemma reachable_coherent (es : list Event) : coherent (run es initial).
Proof. apply coherent_run, coherent_initial. Qed.

(** ** The start of a session *)









(** ** The last confirmation, whatever the listener *)

(** The threshold is reached after the first hand was confirmed: the scan
    is complete and the reveal waits, whichever render the listener is
    from. *)
Lemma completion (r : Results) (s : State) :
  tracking s = true -> handsFound r = true ->
  detectionThreshold <= detectionCount s + 1 ->
  handsDetected s = mkHandsDetected true false ->
  let s' := dispatch (AnimationFrame (Delivered r)) s in
  step s' = complete /\ handsDetected s' = mkHandsDetected true true
  /\ detectionCount s' = 0 /\ showVideo s' = false /\ timers s' = [reveal].
Proof.
  intros H Hr Hc Hd s'; subst s'. open_tracking s H.
  reach_step h m id Hr Hc.
  rewrite handleScanSuccess_second by reflexivity.
  match goal with
  | |- context [commitEffects ?x] =>
      destruct (commit_fields x) as (E & _ & _ & T & V);
      apply entities_inv in E; destruct E as (E1 & E2 & E3);
      rewrite E1, E2, E3, T, V; clear E1 E2 E3 T V
  end.
  unfold seq, setTimeout.
  match goal with
  | |- context [stopCamera ?sc ?y] =>
      destruct (stopCamera_fields sc y) as (E & T & _ & _ & V);
      apply entities_inv in E; destruct E as (E1 & E2 & E3);
      remember (stopCamera sc y) as z eqn:Ez; clear Ez
  end.
  cbn in E1, E2, E3, T, V.
  destruct z; cbn in *; subst. auto.
Qed.

(** * The page in the states it reaches *)

Lemma noLeak_In (s : State) (m : MediaStream) :
  noLeak s = true -> In m (liveTracks s) -> stream s = Some m.
Proof.
  unfold noLeak. intros N Hm.
  rewrite forallb_forall in N. specialize (N m Hm).
  destruct (stream s) as [x|]; [|discriminate N].
  cbn in N. apply Nat.eqb_eq in N. congruence.
Qed.

(** The tracks [stopCamera] leaves running. *)
Lemma stopCamera_tracks (sc : Scope) (s : State) :
  liveTracks (stopCamera sc s) = liveTracks (stopStream sc s).
Proof.
  destruct (stopCamera_shape sc s) as [p E]. rewrite E.
  destruct (showVideo s); destruct (stopStream sc s); reflexivity.
Qed.

Lemma streamCleanup_tracks (old : option MediaStream) (s : State) :
  liveTracks (streamCleanup old s) =
  match old with
  | Some m => remove Nat.eq_dec m (liveTracks s)
  | None => liveTracks s
  end.
Proof.
  destruct s. unfold streamCleanup, seq, skip, stopTracks, cancelAnimationFrame.
  destruct old; split_tests; reflexivity.
Qed.

(** What a coherent page holds, stopped: nothing runs on. *)
Lemma coherent_released (s : State) :
  coherent s ->
  match stream s with
  | Some m => remove Nat.eq_dec m (liveTracks s)
  | None => liveTracks s
  end = [].
Proof.
  intros (_ & _ & _ & N & _). unfold noLeak in N.
  destruct (stream s) as [m|].
  - apply tracks_stopped, N.
  - apply tracks_none, N.
Qed.

(** The flags a coherent page shows, step by step. *)
Lemma coherent_flags (s : State) :
  coherent s ->
  ((step s = idle \/ step s = left_hand)
   /\ handsDetected s = mkHandsDetected false false)
  \/ (step s = right_hand /\ handsDetected s = mkHandsDetected true false)
  \/ (step s = complete /\ handsDetected s = mkHandsDetected true true).
Proof.
  intros (_ & _ & _ & _ & F & _).
  destruct (step s); cbn in F; try discriminate F;
    injection F as F; rewrite <- F; auto 6.
Qed.



(** * Further facts: the page over a whole visit *)

(** ** What holds in every state the page reaches *)

(** In every state the page reaches, the step and the flags go together:
    no hand is confirmed at ['idle'] and at ['left-hand'], the left hand
    alone at ['right-hand'], both hands at ['complete'].  The step
    ['scanning'] of the type is never taken. *)
Theorem step_and_flags_agree (es : list Event) :
  let s := run es initial in
  (((step s = idle \/ step s = left_hand)
    /\ handsDetected s = mkHandsDetected false false)
   \/ (step s = right_hand /\ handsDetected s = mkHandsDetected true false)
   \/ (step s = complete /\ handsDetected s = mkHandsDetected true true))
  /\ step s <> scanning_step.
Proof.
  intros s; subst s.
  pose proof (coherent_flags _ (reachable_coherent es)) as F.
  split; [exact F|].
  destruct F as [[[E|E] _]|[[E _]|[E _]]]; rewrite E; discriminate.
Qed.

(** A session that is tracking stays so until the scan is complete, unless
    the user resets or leaves: whatever the page has been through, from a
    tracking state every event but a click on [Reset] or on the
    [Back to Home] shown during a scan leads to a tracking state again, or
    to the step ['complete'] with both hands confirmed. *)
Theorem tracking_lasts_until_completion (es : list Event) (e : Event) :
  let s := run es initial in
  tracking s = true ->
  e <> ClickReset -> e <> ClickBackToHomeDuringScan ->
  let s' := dispatch e s in
  tracking s' = true
  \/ (step s' = complete /\ handsDetected s' = mkHandsDetected true true).
Proof.
  intros s T Hr Hl s'; subst s'.
  pose proof (reachable_coherent es) as H. fold s in H. clearbody s.
  pose proof (coherent_flags s H) as F.
  destruct (tracking_inv s T) as (A & _ & _ & _ & _ & _ & _ & V & D & _ & Tm).
  assert (U : handler e s = s -> tracking (dispatch e s) = true
                                 \/ (step (dispatch e s) = complete
                                     /\ handsDetected (dispatch e s)
                                        = mkHandsDetected true true)).
  { intros E. rewrite dispatch_unhandled; auto. }
  destruct e; try congruence.
  - left.
    destruct (coherent_library_handler LibraryLoaded s (or_introl eq_refl) H)
      as [C _].
    rewrite dispatch_settled by exact C.
    open_tracking s T. unfold tracking, inSync; cbn. rewrite A. same.
    reflexivity.
  - left.
    destruct (coherent_library_handler LibraryFailed s (or_intror eq_refl) H)
      as [C _].
    rewrite dispatch_settled by exact C.
    open_tracking s T. unfold tracking, inSync; cbn. rewrite A. same.
    reflexivity.
  - apply U. unfold handler.
    destruct (step s); try discriminate A; reflexivity.
  - apply U. cbn [handler]. unfold fireOldest. rewrite Tm. reflexivity.
  - destruct o as [r|].
    + destruct (handsFound r) eqn:Hf.
      * destruct (Z.lt_ge_cases (detectionCount s + 1) detectionThreshold)
          as [Hc|Hc].
        { left. apply (hand_frame_counts r s T Hf Hc). }
        { destruct F as [[[E|E] Hd]|[[E Hd]|[E Hd]]];
            try (rewrite E in A; discriminate A).
          - left. apply (first_confirmation r s T Hf Hc).
            rewrite Hd. reflexivity.
          - right.
            destruct (completion r s T Hf Hc Hd) as (St' & Hd' & _). auto. }
      * left. apply (no_hand_frame_resets r s T Hf).
    + left. apply (failed_frame_skips s T).
  - apply U. cbn [handler]. apply fire_none. rewrite Tm. constructor.
  - apply U. unfold handler.
    destruct (step s); try discriminate A; reflexivity.
Qed.

(** A frame with a hand, fifteen frames into the sample session. *)
Lemma tracking_lasts_until_completion_witness :
  let s' :=
    dispatch (AnimationFrame (Delivered (found 1)))
      (run ([LibraryLoaded; ClickScanHand (Granted 7%nat); InitializeDue]
            ++ frames (repeat (found 1) 15)) initial) in
  tracking s' = true
  \/ (step s' = complete /\ handsDetected s' = mkHandsDetected true true).
Proof.
  apply (tracking_lasts_until_completion
           ([LibraryLoaded; ClickScanHand (Granted 7%nat); InitializeDue]
            ++ frames (repeat (found 1) 15))
           (AnimationFrame (Delivered (found 1))));
    [vm_compute; reflexivity|discriminate|discriminate].
Defined.


(** Whatever the page has been through, an event that changes the step
    leaves the tally at 0: every step starts with a fresh tally. *)
Theorem tally_fresh_on_step_change (es : list Event) (e : Event) :
  let s := run es initial in
  let s' := dispatch e s in
  step s' = step s \/ detectionCount s' = 0.
Proof.
  intros s s'. apply (coherent_dispatch e s), reachable_coherent.
Qed.

(** In every state the page reaches, the only tracks that run are those of
    the stream the page holds.  So [stopCamera] in the scope of the last
    render, and the cleanup at unmount, each leave no track running. *)
Theorem no_track_outlives_the_stream (es : list Event) :
  let s := run es initial in
  (forall m : MediaStream, In m (liveTracks s) -> stream s = Some m)
  /\ liveTracks (stopCamera (scope s) s) = []
  /\ liveTracks (unmount s) = [].
Proof.
  intros s; subst s.
  pose proof (reachable_coherent es) as H.
  set (s := run es initial) in *; clearbody s.
  pose proof (coherent_released s H) as R.
  split; [|split].
  - intros m. apply noLeak_In. destruct H as (_ & _ & _ & N & _). exact N.
  - rewrite stopCamera_tracks. unfold stopStream, scope; cbn [c_stream].
    destruct s; cbn in R |- *. destruct stream0; exact R.
  - unfold unmount. rewrite streamCleanup_tracks.
    destruct H as (Sy & _). apply inSync_inv in Sy.
    destruct Sy as (_ & _ & _ & ->). exact R.
Qed.

(** ** The buttons *)

(** A reset the page offers, [Reset] while a hand is awaited or
    [Back to Home] once the video is revealed, turns the camera off
    whatever the page has been through: the page is idle again with no
    hand confirmed, the tally at 0, the video hidden, no stream held, no
    track running and no detector, and [Scan Hand] is its only button.
    The reset clears no timeout: those that wait go on waiting. *)
Theorem reset_turns_the_camera_off (es : list Event) (e : Event) :
  let s := run es initial in
  (e = ClickReset /\ awaitingHand (step s) = true)
  \/ (e = ClickBackToHome /\ step s = complete /\ showVideo s = true) ->
  let s' := dispatch e s in
  step s' = idle /\ detectionCount s' = 0
  /\ handsDetected s' = mkHandsDetected false false
  /\ showVideo s' = false
  /\ stream s' = None /\ liveTracks s' = []
  /\ handsRef s' = None /\ timers s' = timers s
  /\ buttons s' = [ScanHandButton].
Proof.
  intros s G s'.
  destruct (coherent_click_reset e s (reachable_coherent es) G)
    as (_ & St & C & Hd & V & Sn & Lt & Hh & T & _).
  fold s' in St, C, Sn, Lt, Hd, V, T, Hh.
  repeat (split; [assumption|]).
  unfold buttons. rewrite St. reflexivity.
Qed.

(** [Reset] right after a click on [Scan Hand], before its 500 ms have
    elapsed. *)
Lemma reset_turns_the_camera_off_witness :
  let s' :=
    dispatch ClickReset
      (run [LibraryLoaded; ClickScanHand (Granted 7%nat)] initial) in
  step s' = idle /\ detectionCount s' = 0
  /\ handsDetected s' = mkHandsDetected false false
  /\ showVideo s' = false
  /\ stream s' = None /\ liveTracks s' = []
  /\ handsRef s' = None
  /\ timers s'
     = timers (run [LibraryLoaded; ClickScanHand (Granted 7%nat)] initial)
  /\ buttons s' = [ScanHandButton].
Proof.
  apply (reset_turns_the_camera_off
           [LibraryLoaded; ClickScanHand (Granted 7%nat)] ClickReset).
  left. split; [reflexivity|vm_compute; reflexivity].
Defined.




(** The [Back to Home] shown during a scan stops the camera whatever the
    page has been through, and nothing else: no stream is held, no track
    runs and no detector is held, while the step, the tally, the flags and
    the timeouts that wait are as before; the page still shows [Reset] and
    that button. *)
Theorem leave_during_scan_stops_the_camera (es : list Event) :
  let s := run es initial in
  awaitingHand (step s) = true ->
  let s' := dispatch ClickBackToHomeDuringScan s in
  step s' = step s /\ detectionCount s' = detectionCount s
  /\ handsDetected s' = handsDetected s
  /\ stream s' = None /\ liveTracks s' = []
  /\ handsRef s' = None /\ timers s' = timers s
  /\ buttons s' = [ResetButton; BackToHomeDuringScan].
Proof.
  intros s A s'.
  assert (G : negb (ScanStep_eqb (step s) idle)
              && negb (ScanStep_eqb (step s) complete) = true)
    by (destruct (step s); try discriminate A; reflexivity).
  assert (E : s' = commitEffects (fire 0 (stopCamera (scope s) s))).
  { unfold s'. rewrite dispatch_eq. unfold handler. rewrite G. reflexivity. }
  destruct (coherent_leave s (reachable_coherent es))
    as (_ & St & R).
  rewrite <- E in St, R. clearbody s s'.
  destruct R as (Z & Hd & Sn & Lt & Hh & T).
  repeat (split; [assumption|]).
  unfold buttons. rewrite St.
  destruct (step s); try discriminate A; reflexivity.
Qed.

(** [Back to Home] right after a click on [Scan Hand]. *)
Lemma leave_during_scan_stops_the_camera_witness :
  let s' :=
    dispatch ClickBackToHomeDuringScan
      (run [LibraryLoaded; ClickScanHand (Granted 7%nat)] initial) in
  step s'
  = step (run [LibraryLoaded; ClickScanHand (Granted 7%nat)] initial)
  /\ detectionCount s'
     = detectionCount
         (run [LibraryLoaded; ClickScanHand (Granted 7%nat)] initial)
  /\ handsDetected s'
     = handsDetected
         (run [LibraryLoaded; ClickScanHand (Granted 7%nat)] initial)
  /\ stream s' = None /\ liveTracks s' = []
  /\ handsRef s' = None
  /\ timers s'
     = timers (run [LibraryLoaded; ClickScanHand (Granted 7%nat)] initial)
  /\ buttons s' = [ResetButton; BackToHomeDuringScan].
Proof.
  apply (leave_during_scan_stops_the_camera
           [LibraryLoaded; ClickScanHand (Granted 7%nat)]).
  vm_compute; reflexivity.
Defined.


(** The reveal need not wait alone: after a click on [Scan Hand], a
    [Reset] and a second click within the 500 ms of the first, the first
    timeout installs the detector and sixty frames with a hand complete the
    scan while the timeout of the second click still waits. *)
Example reveal_waits_with_another_timeout :
  let s :=
    run ([LibraryLoaded; ClickScanHand (Granted 1%nat); ClickReset;
          ClickScanHand (Granted 2%nat); InitializeDue]
         ++ frames (repeat (found 1) 60)) initial in
  step s = complete /\ showVideo s = false /\ buttons s = []
  /\ timers s = [initTimeout (mkScope None true); reveal].
Proof. vm_compute. auto. Qed.

(** ** The header and the indicators *)

(** In every state the page reaches, the header shows exactly one text,
    and the number in it is the tally itself: the clamp to the threshold
    never applies. *)
Theorem header_shows_one_text (es : list Event) :
  let s := run es initial in
  List.length (headerText s) = 1%nat
  /\ Z.min (detectionCount s) detectionThreshold = detectionCount s.
Proof.
  intros s; subst s.
  pose proof (reachable_coherent es) as H.
  set (s := run es initial) in *; clearbody s.
  pose proof (coherent_flags s H) as F.
  destruct H as (_ & B & _). unfold bounded in B.
  split; [|lia].
  unfold headerText.
  destruct F as [[[E|E] _]|[[E _]|[E _]]]; rewrite E; cbn [ScanStep_eqb andb];
    try reflexivity.
  - destruct (Z.eqb_spec (detectionCount s) 0) as [Z0|Z0].
    + rewrite Z0. reflexivity.
    + destruct (Z.ltb_spec 0 (detectionCount s)); [reflexivity|lia].
  - destruct (Z.eqb_spec (detectionCount s) 0) as [Z0|Z0].
    + rewrite Z0. reflexivity.
    + destruct (Z.ltb_spec 0 (detectionCount s)); [reflexivity|lia].
Qed.

(** In every state the page reaches, the two indicators follow the step:
    both gray with their numbers at ['idle']; the left one purple at
    ['left-hand']; the left one green with a tick and the right one purple
    at ['right-hand']; both green with a tick at ['complete']. *)
Theorem indicators_follow_the_step (es : list Event) :
  let s := run es initial in
  indicators s =
  match step s with
  | idle => [(gray, number 1); (gray, number 2)]
  | left_hand => [(purple, number 1); (gray, number 2)]
  | right_hand => [(green, tick); (purple, number 2)]
  | _ => [(green, tick); (green, tick)]
  end
  /\ step s <> scanning_step.
Proof.
  intros s; subst s.
  pose proof (coherent_flags _ (reachable_coherent es)) as F.
  unfold indicators, indicator.
  destruct F as [[[E|E] Hd]|[[E Hd]|[E Hd]]]; rewrite E, Hd;
    (split; [reflexivity|discriminate]).
Qed.

(** ** The start of a session *)



(** Whatever the page has been through, a click on [Scan Hand] that the
    camera refuses leaves the page idle with the message of a denied
    camera and one more line on the console, and changes nothing else: the
    stream held, the tracks that run, the detector and the timeouts that
    wait are as before. *)
Theorem camera_denied (es : list Event) :
  let s := run es initial in
  step s = idle -> mediapipeLoaded s = true ->
  let s' := dispatch (ClickScanHand Denied) s in
  s' = set_console (console s ++ ["Error accessing camera:"])
         (set_error msgDenied s)
  /\ step s' = idle /\ detectionCount s' = 0
  /\ handsDetected s' = mkHandsDetected false false
  /\ error s' = msgDenied
  /\ console s' = console s ++ ["Error accessing camera:"]
  /\ stream s' = stream s /\ liveTracks s' = liveTracks s
  /\ handsRef s' = handsRef s /\ timers s' = timers s.
Proof.
  intros s St L s'.
  pose proof (reachable_coherent es) as H. fold s in H.
  destruct (click_without_stream Denied s H St) as (_ & E); [auto|].
  fold s' in E. rewrite L in E.
  destruct (coherent_idle s H St) as (Hd & Z & _).
  clearbody s s'. subst s'. destruct s; cbn in *; subst. auto 12.
Qed.

(** The camera is refused at the first click. *)
Lemma camera_denied_witness :
  let s' := dispatch (ClickScanHand Denied) (run [LibraryLoaded] initial) in
  s' = set_console
         (console (run [LibraryLoaded] initial)
          ++ ["Error accessing camera:"])
         (set_error msgDenied (run [LibraryLoaded] initial))
  /\ step s' = idle /\ detectionCount s' = 0
  /\ handsDetected s' = mkHandsDetected false false
  /\ error s' = msgDenied
  /\ console s'
     = console (run [LibraryLoaded] initial) ++ ["Error accessing camera:"]
  /\ stream s' = stream (run [LibraryLoaded] initial)
  /\ liveTracks s' = liveTracks (run [LibraryLoaded] initial)
  /\ handsRef s' = handsRef (run [LibraryLoaded] initial)
  /\ timers s' = timers (run [LibraryLoaded] initial).
Proof.
  apply (camera_denied [LibraryLoaded]); vm_compute; reflexivity.
Defined.



(** ** While the library is not loaded *)

(** A frame event at a step that awaits no hand changes nothing of the
    state machine, of the stream or of the timeouts. *)
Lemma frame_asleep (o : SendOutcome) (s : State) :
  coherent s -> awaitingHand (step s) = false ->
  let s' := dispatch (AnimationFrame o) s in
  step s' = step s /\ mediapipeLoaded s' = mediapipeLoaded s
  /\ stream s' = stream s /\ timers s' = timers s.
Proof.
  intros H A s'; subst s'.
  assert (R : stepRef s = step s).
  { destruct H as (Sy & _). apply inSync_inv in Sy. tauto. }
  rewrite <- R in A.
  assert (G : forall x : State,
             frameResult s x ->
             coherent x /\ step x = step s
             /\ mediapipeLoaded x = mediapipeLoaded s
             /\ stream x = stream s /\ timers x = timers s).
  { intros x FR. destruct FR as [Hp| | |A'|A' Hc|sc A' Hc]; try congruence.
    - auto.
    - split; [|destruct s; auto].
      apply (coherent_detector s); [exact H|destruct s; reflexivity].
    - split; [|destruct s; auto].
      apply (coherent_detector (set_console (console s ++ [msgSend]) s));
        [apply coherent_console, H|destruct s; reflexivity]. }
  destruct (G _ (handler_frame_cases o s)) as (C & F).
  rewrite dispatch_settled by exact C. exact F.
Qed.

(** Without the library, with no stream held and no timeout waiting, an
    event other than the end of the load leaves the page as idle as it
    was. *)
Lemma idle_without_library (e : Event) (s : State) :
  coherent s -> step s = idle -> mediapipeLoaded s = false ->
  stream s = None -> timers s = [] -> e <> LibraryLoaded ->
  let s' := dispatch e s in
  step s' = idle /\ mediapipeLoaded s' = false /\ stream s' = None
  /\ timers s' = [].
Proof.
  intros H St L Sn T He s'; subst s'.
  assert (U : handler e s = s ->
              step (dispatch e s) = idle
              /\ mediapipeLoaded (dispatch e s) = false
              /\ stream (dispatch e s) = None /\ timers (dispatch e s) = []).
  { intros E. rewrite dispatch_unhandled; auto. }
  destruct e; try congruence.
  - assert (C : coherent (handler LibraryFailed s)).
    { cbn [handler]. unfold seq, consoleError, setError.
      apply coherent_error, coherent_console, H. }
    rewrite dispatch_settled by exact C. destruct s; cbn in *; auto.
  - destruct (click_without_stream o s H St) as (_ & E); [auto|].
    rewrite E, L. destruct s; cbn in *; auto.
  - apply U. cbn [handler]. unfold fireOldest. rewrite T. reflexivity.
  - destruct (frame_asleep o s H) as (-> & -> & -> & ->); auto.
    rewrite St; reflexivity.
  - apply U. cbn [handler]. apply fire_none. rewrite T. constructor.
  - apply U. unfold handler. rewrite St. reflexivity.
  - apply U. unfold handler. rewrite St. reflexivity.
  - apply U. unfold handler. rewrite St. reflexivity.
Qed.

(** As long as the library has not finished loading, no session starts and
    the camera is never asked for: whatever else happens, the page is idle
    with no hand confirmed and the tally at 0, it holds no stream and no
    track runs. *)
Theorem no_session_without_the_library (es : list Event) :
  ~ In LibraryLoaded es ->
  let s := run es initial in
  step s = idle /\ mediapipeLoaded s = false
  /\ detectionCount s = 0
  /\ handsDetected s = mkHandsDetected false false
  /\ stream s = None /\ liveTracks s = [].
Proof.
  intros Hes s; subst s.
  assert (K : forall s0 : State,
             coherent s0 -> step s0 = idle -> mediapipeLoaded s0 = false ->
             stream s0 = None -> timers s0 = [] ->
             let s := run es s0 in
             coherent s /\ step s = idle /\ mediapipeLoaded s = false
             /\ stream s = None).
  { induction es as [|e es IH]; intros s0 H St L Sn T; [cbn; auto|].
    rewrite run_cons.
    assert (He : e <> LibraryLoaded).
    { intros ->. apply Hes. left; reflexivity. }
    destruct (idle_without_library e s0 H St L Sn T He)
      as (St' & L' & Sn' & T').
    apply IH; try assumption.
    - intros Hin. apply Hes. right; exact Hin.
    - apply coherent_dispatch, H. }
  destruct (K initial coherent_initial eq_refl eq_refl eq_refl eq_refl)
    as (H & St & L & Sn).
  pose proof (coherent_flags _ H) as F.
  assert (Z : detectionCount (run es initial) = 0).
  { destruct H as (_ & _ & _ & _ & _ & Z & _). apply Z.
    rewrite St; reflexivity. }
  assert (N : liveTracks (run es initial) = []).
  { destruct H as (_ & _ & _ & N & _). unfold noLeak in N.
    rewrite Sn in N. apply tracks_none, N. }
  remember (run es initial) as s eqn:Es. clear Es.
  repeat (split; [assumption|]).
  split; [|auto].
  destruct F as [[_ F]|[[E _]|[E _]]]; congruence.
Qed.

(** The load fails; the clicks and the frames that follow start nothing. *)
Lemma no_session_without_the_library_witness :
  let s :=
    run [LibraryFailed; ClickScanHand (Granted 7%nat); InitializeDue;
         AnimationFrame (Delivered (found 1)); ClickReset] initial in
  step s = idle /\ mediapipeLoaded s = false
  /\ detectionCount s = 0
  /\ handsDetected s = mkHandsDetected false false
  /\ stream s = None /\ liveTracks s = [].
Proof.
  apply (no_session_without_the_library
           [LibraryFailed; ClickScanHand (Granted 7%nat); InitializeDue;
            AnimationFrame (Delivered (found 1)); ClickReset]).
  cbn. intuition discriminate.
Defined.

(** ** [stopCamera] and a whole scan *)

(** [stopCamera] run a second time in the same scope changes nothing. *)
Theorem stopCamera_twice (sc : Scope) (s : State) :
  stopCamera sc (stopCamera sc s) = stopCamera sc s.
Proof.
  destruct s. unfold stopCamera.
  destruct (c_stream sc), showVideo0, animationFrameRef0 as [a|],
    handsRef0, pendingFrame0 as [p|];
    cbv beta iota zeta delta -[remove Nat.eq_dec Nat.eqb];
    try destruct (Nat.eqb p a);
    rewrite ?remove_remove_eq; reflexivity.
Qed.



